(** * Optimistic CRUD cache and session manager: a shallow embedding

    The development follows the TypeScript sources
    - [authEvents.ts]  (the session event bus),
    - [useBaseCrud.ts] (the optimistic mutation engine over the query cache),
    - [useAuth.ts]     (the session manager),
    and states the properties of the specification over them.

    Asynchronous code is written in a small state monad that records the
    state at every suspension point ([await]).  The collaborators that live
    outside the repository (the query cache, the durable key/value storage,
    the HTTP client, the clock) are modelled by what the code relies on. *)

From stdpp Require Import gmap strings list fin_maps pretty.

(** ** JavaScript values, as far as the code uses them *)

Module Js.

(** Primitive values; numbers are the integers the code handles
    (identifiers, [Date.now()]). *)
Inductive prim : Type :=
| Undefined
| Null
| Bool (b : bool)
| Num (n : Z)
| Str (s : string).

#[global] Instance prim_eq_dec : EqDecision prim.
Proof. solve_decision. Defined.

Definition prim_to_sum (v : prim) : unit + unit + bool + Z + string :=
  match v with
  | Undefined => inl (inl (inl (inl tt)))
  | Null => inl (inl (inl (inr tt)))
  | Bool b => inl (inl (inr b))
  | Num n => inl (inr n)
  | Str s => inr s
  end.

Definition prim_of_sum (x : unit + unit + bool + Z + string) : prim :=
  match x with
  | inl (inl (inl (inl _))) => Undefined
  | inl (inl (inl (inr _))) => Null
  | inl (inl (inr b)) => Bool b
  | inl (inr n) => Num n
  | inr s => Str s
  end.

#[global] Instance prim_countable : Countable prim.
Proof.
  apply (inj_countable' prim_to_sum prim_of_sum).
  by intros [].
Defined.

(** An object with primitive fields; [o.f] of a missing field is
    [undefined]. *)
Abbreviation object := (gmap string prim).

Definition get (o : object) (f : string) : prim := default Undefined (o !! f).

(** [a === b] on primitives. *)
Definition strict_eq (a b : prim) : bool := bool_decide (a = b).

(** [{ ...a, ...b }]: the fields of [b] win. *)
Definition spread (a b : object) : object := b ∪ a.

(** [`${n}`] for an integer. *)
Definition string_of_number (n : Z) : string := pretty n.

(** [`${v}`] in a template literal. *)
Definition to_string (v : prim) : string :=
  match v with
  | Undefined => "undefined"
  | Null => "null"
  | Bool true => "true"
  | Bool false => "false"
  | Num n => string_of_number n
  | Str s => s
  end.

(** Truthiness of an optional string ([if (data.refresh)]). *)
Definition truthy_string (s : option string) : bool :=
  match s with
  | Some x => negb (bool_decide (x = ""))
  | None => false
  end.

(** [xs.includes(x)] and [xs.some(p)]. *)
Definition includes {A} `{EqDecision A} (xs : list A) (x : A) : bool :=
  existsb (λ y, bool_decide (y = x)) xs.

Definition some {A} (xs : list A) (p : A → bool) : bool := existsb p xs.

(** [!!v]: the truthiness of the values of a type. *)
Class ToBoolean (A : Type) : Type := truthy : A → bool.

#[global] Instance prim_truthy : ToBoolean prim := λ v,
  match v with
  | Undefined | Null => false
  | Bool b => b
  | Num n => negb (bool_decide (n = 0%Z))
  | Str s => negb (bool_decide (s = ""))
  end.

#[global] Instance string_truthy : ToBoolean string := λ s,
  negb (bool_decide (s = "")).

End Js.

(** ** Asynchronous computations

    A computation threads the state and records the state at every
    suspension point it passes.  Between two suspension points the code runs
    to completion, so the recorded states and the final state are exactly the
    states another task can observe. *)

Module Async.

Definition t (S A : Type) : Type := S → A * S * list S.

Definition ret {S A} (a : A) : t S A := λ s, (a, s, []).

Definition bind {S A B} (m : t S A) (f : A → t S B) : t S B :=
  λ s, let '(a, s1, o1) := m s in
       let '(b, s2, o2) := f a s1 in
       (b, s2, o1 ++ o2).

Definition gets {S A} (f : S → A) : t S A := λ s, (f s, s, []).

Definition modify {S} (f : S → S) : t S unit := λ s, (tt, f s, []).

(** An [await]: control returns to the event loop, the current state is
    visible to everybody else. *)
Definition suspend {S} : t S unit := λ s, (tt, s, [s]).

Definition result {S A} (m : t S A) (s : S) : A := (m s).1.1.
Definition final {S A} (m : t S A) (s : S) : S := (m s).1.2.
Definition suspended {S A} (m : t S A) (s : S) : list S := (m s).2.

(** Every state visible from outside while [m] runs, in order. *)
Definition observable {S A} (m : t S A) (s : S) : list S :=
  suspended m s ++ [final m s].

End Async.

#[global] Instance async_ret {S} : MRet (Async.t S) := λ _, Async.ret.
#[global] Instance async_bind {S} : MBind (Async.t S) := λ _ _ f m, Async.bind m f.

(** ** The session event bus ([authEvents.ts]) *)

Module AuthEvents.
Section bus.

(** A listener is a function reference; [l !== fn] compares references.
    [W] is the rest of the process state a callback may touch. *)
Context {Listener : Type} `{EqDecision Listener} {W : Type}.

(** [let listeners: Listener[] = []] together with the rest of the
    process. *)
Record State : Type := mkState { listeners : list Listener; world : W }.

Definition init (w : W) : State := mkState [] w.

(** The closure returned by [subscribe]:
    [listeners = listeners.filter((l) => l !== fn)], evaluated on the
    registry as it is when the closure is called. *)
Definition unsubscribe (fn : Listener) (st : State) : State :=
  mkState (filter (λ l, l ≠ fn) (listeners st)) (world st).

(** [subscribe(fn)]: [listeners.push(fn)], then return the closure. *)
Definition subscribe (fn : Listener) (st : State) : State * (State → State) :=
  (mkState (listeners st ++ [fn]) (world st), unsubscribe fn).

(** How a synchronous call ends: it returns, or it throws; in both cases
    with the process as the call left it. *)
Inductive Completion : Type :=
| Returned (st : State)
| Thrown (st : State).

Definition state_of (c : Completion) : State :=
  match c with Returned st | Thrown st => st end.

(** What calling a listener does, synchronously, to the process. *)
Variable call : Listener → State → Completion.

(** [xs.forEach((l) => l())]: the elements visited are fixed when the loop
    starts; a callback that unsubscribes replaces the array and one that
    subscribes appends behind the range.  An exception leaves the loop.
    The first component lists the calls made, in order. *)
Fixpoint forEach (xs : list Listener) (st : State)
    : list Listener * Completion :=
  match xs with
  | [] => ([], Returned st)
  | l :: xs' =>
      match call l st with
      | Returned st' =>
          let '(calls, c) := forEach xs' st' in (l :: calls, c)
      | Thrown st' => ([l], Thrown st')
      end
  end.

Definition emitLogout (st : State) : list Listener * Completion :=
  forEach (listeners st) st.

(** How often [l] occurs in a list of listeners. *)
Definition times (l : Listener) (xs : list Listener) : nat :=
  length (filter (λ x, x = l) xs).

End bus.
Arguments State : clear implicits.
Arguments Completion : clear implicits.

Section async_listeners.

(** Listeners that are [async] functions awaiting in their first
    statement: a call changes nothing by itself and leaves the body to run
    later, and never throws.  The process is the application state [S] and
    the bodies that were started and have not run yet. *)
Context {Listener S : Type}.

Record Process : Type := mkProcess {
  app : S;
  pending : list (Async.t S unit)
}.

Variable body : Listener → Async.t S unit.

Definition call_async (l : Listener) (st : State Listener Process)
    : Completion Listener Process :=
  Returned
    (mkState (listeners st)
             (mkProcess (app (world st)) (pending (world st) ++ [body l]))).

(** The event loop runs what is pending, one body after the other. *)
Definition run_pending (p : Process) : Process :=
  mkProcess (fold_left (λ a m, Async.final m a) (pending p) (app p)) [].

End async_listeners.
Arguments Process : clear implicits.
End AuthEvents.

(** ** The query cache, as the hooks use it

    The cache belongs to the query library; what follows is the part of its
    contract the hooks rely on: data is stored per key, [setQueryData] writes
    the result of its updater (called with the current data, [undefined] when
    there is none) and leaves the entry fresh, [invalidateQueries] marks the
    matching entries for a refetch without touching their data, [clear]
    drops everything. *)

Module QueryClient.

Abbreviation QueryKey := (list Js.prim).
Abbreviation Data := (list Js.object).

Record t : Type := mk {
  queries : gmap QueryKey Data;
  invalidated : gset QueryKey
}.

Definition empty : t := mk ∅ ∅.

Definition getQueryData (key : QueryKey) (qc : t) : option Data :=
  queries qc !! key.

Definition setQueryData (key : QueryKey) (updater : option Data → Data)
    (qc : t) : t :=
  mk (<[key := updater (queries qc !! key)]> (queries qc))
     (invalidated qc ∖ {[key]}).

(** Query filters match every key that starts with the given one. *)
Definition invalidateQueries (key : QueryKey) (qc : t) : t :=
  mk (queries qc)
     (invalidated qc ∪ filter (λ k, key `prefix_of` k) (dom (queries qc))).

Definition clear (qc : t) : t := empty.

End QueryClient.

(** ** The HTTP client and the mutation life cycle *)

Module Http.

Inductive Verb : Type := GET | POST | PUT | DELETE.

Record Request : Type := mkRequest {
  verb : Verb;
  url : string;
  body : option Js.object
}.

(** [(await api.verb(url, body)).data]: the state stays as it is while the
    request is in flight; [api] is what the remote side answers. *)
Definition request {S E R} (api : Request → E + R)
    (v : Verb) (u : string) (b : option Js.object) : Async.t S (E + R) :=
  Async.suspend;; mret (api (mkRequest v u b)).

End Http.

Module Mutation.

(** The options of [useMutation], over the state [S] the callbacks act on:
    variables [V], error [E], result [R], context [C]. *)
Record Options (S V E R C : Type) : Type := mkOptions {
  mutationFn : V → Async.t S (E + R);
  onMutate : V → Async.t S C;
  onSuccess : R → V → C → Async.t S unit;
  onError : E → V → C → Async.t S unit;
  onSettled : Async.t S unit
}.
Arguments mkOptions {S V E R C}.
Arguments mutationFn {S V E R C}.
Arguments onMutate {S V E R C}.
Arguments onSuccess {S V E R C}.
Arguments onError {S V E R C}.
Arguments onSettled {S V E R C}.

(** A callback the hook does not give. *)
Definition skip {S} : Async.t S unit := mret tt.

(** [mutateAsync(vars)]: [onMutate], the mutation function, then
    [onSuccess] or [onError], [onSettled] in both cases; the promise
    resolves with the data ([inr]) or rejects with the error ([inl]). *)
Definition mutateAsync {S V E R C} (o : Options S V E R C) (vars : V)
    : Async.t S (E + R) :=
  ctx ← onMutate o vars;
  r ← mutationFn o vars;
  match r with
  | inr data =>
      onSuccess o data vars ctx;; onSettled o;; mret (inr data)
  | inl err =>
      onError o err vars ctx;; onSettled o;; mret (inl err)
  end.

End Mutation.

(** ** The optimistic mutation engine ([useBaseCrud.ts]) *)

Module BaseCrud.

Import Js Http.

(** The context [onMutate] hands to [onError]. *)
Record Context : Type := mkContext { previous : option QueryClient.Data }.

Abbreviation M := (Async.t QueryClient.t).

(** The cache calls of the hook, in the monad. *)
Definition cancelQueries (queryKey : QueryClient.QueryKey) : M unit :=
  Async.suspend.

Definition getQueryData (queryKey : QueryClient.QueryKey)
    : M (option QueryClient.Data) :=
  Async.gets (QueryClient.getQueryData queryKey).

Definition setQueryData (queryKey : QueryClient.QueryKey)
    (updater : option QueryClient.Data → QueryClient.Data) : M unit :=
  Async.modify (QueryClient.setQueryData queryKey updater).

Definition invalidateQueries (queryKey : QueryClient.QueryKey) : M unit :=
  Async.modify (QueryClient.invalidateQueries queryKey).

Section crud.

(** The normalized error and the response payload of the HTTP client, and
    what the remote API answers to each request. *)
Context {ApiError Resp : Type}.
Variable api : Request → ApiError + Resp.

Variable queryKey : QueryClient.QueryKey.
Variable endpoint : string.

(** The identifier of an optimistic entity: [`temp-${Date.now()}`]. *)
Definition temp_id (now : Z) : prim := Str ("temp-" +:+ string_of_number now).

(** [if (ctx?.previous) queryClient.setQueryData(queryKey, ctx.previous)];
    an array is truthy, also when it is empty. *)
Definition rollback (ctx : Context) : M unit :=
  match previous ctx with
  | Some p => setQueryData queryKey (λ _, p)
  | None => mret tt
  end.

(** The optimistic collections, [(old = []) => ...]. *)
Definition appended (now : Z) (data : object) (old : option QueryClient.Data)
    : QueryClient.Data :=
  default [] old ++ [<["id" := temp_id now]> data].

Definition merged (id : prim) (data : object) (old : option QueryClient.Data)
    : QueryClient.Data :=
  (λ item, if strict_eq (get item "id") id then spread item data else item)
    <$> default [] old.

Definition without (id : prim) (old : option QueryClient.Data)
    : QueryClient.Data :=
  filter (λ item, strict_eq (get item "id") id = false) (default [] old).

(** [create]; [now] is what [Date.now()] returns in [onMutate]. *)
Definition create (now : Z)
    : Mutation.Options QueryClient.t object ApiError Resp Context := {|
  Mutation.mutationFn data := request api POST endpoint (Some data);
  Mutation.onMutate data :=
    cancelQueries queryKey;;
    previous ← getQueryData queryKey;
    setQueryData queryKey (appended now data);;
    mret (mkContext previous);
  Mutation.onSuccess _ _ _ := Mutation.skip;
  Mutation.onError _ _ ctx := rollback ctx;
  Mutation.onSettled := invalidateQueries queryKey
|}.

(** [update], called with [{ id, data }]. *)
Definition update
    : Mutation.Options QueryClient.t (prim * object) ApiError Resp Context := {|
  Mutation.mutationFn '(id, data) :=
    request api PUT (endpoint +:+ "/" +:+ to_string id +:+ "/") (Some data);
  Mutation.onMutate '(id, data) :=
    cancelQueries queryKey;;
    previous ← getQueryData queryKey;
    setQueryData queryKey (merged id data);;
    mret (mkContext previous);
  Mutation.onSuccess _ _ _ := Mutation.skip;
  Mutation.onError _ _ ctx := rollback ctx;
  Mutation.onSettled := invalidateQueries queryKey
|}.

(** [remove], called with the identifier. *)
Definition remove
    : Mutation.Options QueryClient.t prim ApiError Resp Context := {|
  Mutation.mutationFn id :=
    request api DELETE (endpoint +:+ "/" +:+ to_string id +:+ "/") None;
  Mutation.onMutate id :=
    cancelQueries queryKey;;
    previous ← getQueryData queryKey;
    setQueryData queryKey (without id);;
    mret (mkContext previous);
  Mutation.onSuccess _ _ _ := Mutation.skip;
  Mutation.onError _ _ ctx := rollback ctx;
  Mutation.onSettled := invalidateQueries queryKey
|}.

End crud.
End BaseCrud.

(** ** The session manager ([useAuth.ts]) *)

Module Auth.

Import Js Http.

Definition ACCESS_TOKEN_KEY : string := "access_token".
Definition REFRESH_TOKEN_KEY : string := "refresh_token".
Definition USER_KEY : string := "auth_user".

(** The user object: the two fields the hook reads, and the rest. *)
Record User : Type := mkUser {
  role : option string;
  permissions : option (list string);
  profile : object
}.

(** What login and registration answer: [{ access, refresh?, user }]. *)
Record AuthResponse : Type := mkResponse {
  access : string;
  refresh : option string;
  user : User
}.

(** The durable storage, the [user] state of the hook, the query cache and
    the toasts shown. *)
Record App : Type := mkApp {
  storage : gmap string string;
  user_state : option User;
  queryClient : QueryClient.t;
  toasts : list (string * string)
}.

Abbreviation M := (Async.t App).

(** [await AsyncStorage.setItem(k, v)] and
    [await AsyncStorage.multiRemove(ks)]: the caller is suspended when the
    call is made and goes on when the promise has resolved; the storage
    changes in between, so the state before the write and the state after
    it can both be observed while the caller waits.  [multiRemove] is one
    call to the storage, its keys go together. *)
Definition setItem (k v : string) : M unit :=
  Async.suspend;;
  Async.modify (λ a, mkApp (<[k := v]> (storage a)) (user_state a)
                           (queryClient a) (toasts a));;
  Async.suspend.

Definition multiRemove (ks : list string) : M unit :=
  Async.suspend;;
  Async.modify (λ a, mkApp (foldr delete (storage a) ks) (user_state a)
                           (queryClient a) (toasts a));;
  Async.suspend.

Definition setUser (u : option User) : M unit :=
  Async.modify (λ a, mkApp (storage a) u (queryClient a) (toasts a)).

Definition queryClient_clear : M unit :=
  Async.modify (λ a, mkApp (storage a) (user_state a)
                           (QueryClient.clear (queryClient a)) (toasts a)).

Definition toast_error (title description : string) : M unit :=
  Async.modify (λ a, mkApp (storage a) (user_state a) (queryClient a)
                           (toasts a ++ [(title, description)])).

(** [isAuthenticated: !!user]. *)
Definition isAuthenticated (a : App) : bool := bool_decide (is_Some (user_state a)).

(** The role and permission helpers. *)
Definition role_of (u : option User) : option string := u ≫= role.
Definition permissions_of (u : option User) : list string :=
  default [] (u ≫= permissions).

Definition hasRole (u : option User) (r : string) : bool :=
  bool_decide (role_of u = Some r).

Definition hasPermission (u : option User) (perm : string) : bool :=
  includes (permissions_of u) perm.

Definition hasAnyPermission (u : option User) (perms : list string) : bool :=
  some perms (λ p, includes (permissions_of u) p).

Definition clearAuth : M unit :=
  multiRemove [ACCESS_TOKEN_KEY; REFRESH_TOKEN_KEY; USER_KEY].

(** [logout], and the listener the hook subscribes to the event bus: the
    same three statements. *)
Definition logout : M unit :=
  clearAuth;; setUser None;; queryClient_clear.

Definition onLogoutEvent : M unit :=
  clearAuth;; setUser None;; queryClient_clear.

(** The effect of the hook subscribes one listener, an [async] closure; it
    is the only subscriber in the sources.  A termination event is
    processed when the bodies started by [emitLogout] have run. *)
Abbreviation Listener := nat.

Definition mount (h : Listener)
    (st : AuthEvents.State Listener (AuthEvents.Process App))
    : AuthEvents.State Listener (AuthEvents.Process App)
      * (AuthEvents.State Listener (AuthEvents.Process App)
         → AuthEvents.State Listener (AuthEvents.Process App)) :=
  AuthEvents.subscribe h st.

Definition call (l : Listener)
    : AuthEvents.State Listener (AuthEvents.Process App)
      → AuthEvents.Completion Listener (AuthEvents.Process App) :=
  AuthEvents.call_async (λ _, onLogoutEvent) l.

Definition terminate (st : AuthEvents.State Listener (AuthEvents.Process App))
    : App :=
  AuthEvents.app
    (AuthEvents.run_pending
       (AuthEvents.world
          (AuthEvents.state_of (AuthEvents.emitLogout call st).2))).

Section auth.

(** [JSON.stringify] on the user object, the values a request is rejected
    with, their truthiness and their message, and the remote API. *)
Variable stringify : User → string.
Context {ApiError : Type} `{!ToBoolean ApiError}.
Variable message : ApiError → string.
Variable api : Request → ApiError + AuthResponse.

Definition saveAuth (data : AuthResponse) : M unit :=
  setItem ACCESS_TOKEN_KEY (access data);;
  (match refresh data with
   | Some r => if bool_decide (r = "") then mret tt
               else setItem REFRESH_TOKEN_KEY r
   | None => mret tt
   end);;
  setItem USER_KEY (stringify (user data)).

(** [if (!error) return; AppToast.error({ title, description:
    error.message })]. *)
Definition handleAuthError (error : ApiError) : M unit :=
  if truthy error then toast_error "Authentication Error" (message error)
  else mret tt.

Definition login : Mutation.Options App object ApiError AuthResponse unit := {|
  Mutation.mutationFn payload := request api POST "/auth/login/" (Some payload);
  Mutation.onMutate _ := mret tt;
  Mutation.onSuccess data _ _ :=
    saveAuth data;; setUser (Some (user data));; queryClient_clear;
  Mutation.onError error _ _ := handleAuthError error;
  Mutation.onSettled := Mutation.skip
|}.

Definition register : Mutation.Options App object ApiError AuthResponse unit := {|
  Mutation.mutationFn payload := request api POST "/auth/register/" (Some payload);
  Mutation.onMutate _ := mret tt;
  Mutation.onSuccess data _ _ :=
    saveAuth data;; setUser (Some (user data));; queryClient_clear;
  Mutation.onError error _ _ := handleAuthError error;
  Mutation.onSettled := Mutation.skip
|}.

End auth.
End Auth.

(** ** Derived notions and the data of the scenarios *)

Module Scenario.

Import Js Http.

(** What a mutation on [queryKey] that wrote [optimistic] leaves when the
    remote call failed: the snapshot when there was one, and the mark for
    a refetch. *)
Definition settled_failure (queryKey : QueryClient.QueryKey)
    (optimistic : option QueryClient.Data → QueryClient.Data)
    (qc : QueryClient.t) : QueryClient.t :=
  let applied := QueryClient.setQueryData queryKey optimistic qc in
  QueryClient.invalidateQueries queryKey
    match QueryClient.getQueryData queryKey qc with
    | Some p => QueryClient.setQueryData queryKey (λ _, p) applied
    | None => applied
    end.

(** A session manager in a purged state. *)
Definition purged (s : Auth.App) : Prop :=
  (∀ key, QueryClient.getQueryData key (Auth.queryClient s) = None)
  ∧ Auth.storage s !! Auth.ACCESS_TOKEN_KEY = None
  ∧ Auth.storage s !! Auth.REFRESH_TOKEN_KEY = None
  ∧ Auth.storage s !! Auth.USER_KEY = None
  ∧ Auth.user_state s = None.

(** The durable storage holds the access token and the profile of the
    answer [data]. *)
Definition persisted (stringify : Auth.User → string)
    (data : Auth.AuthResponse) (s : Auth.App) : Prop :=
  Auth.storage s !! Auth.ACCESS_TOKEN_KEY = Some (Auth.access data)
  ∧ Auth.storage s !! Auth.USER_KEY = Some (stringify (Auth.user data)).

(** No session in memory without an access token in the storage. *)
Definition recoverable (s : Auth.App) : Prop :=
  Auth.isAuthenticated s = true
  → is_Some (Auth.storage s !! Auth.ACCESS_TOKEN_KEY).

(** [usePosts]: the key and the endpoint. *)
Definition posts : QueryClient.QueryKey := [Str "posts"].
Definition posts_endpoint : string := "/posts".

Definition post_A : object := {[ "id" := Num 1; "title" := Str "A" ]}.
Definition post_B : object := {[ "id" := Num 1; "title" := Str "B" ]}.
Definition title_B : object := {[ "title" := Str "B" ]}.
Definition title_New : object := {[ "title" := Str "New" ]}.
Definition title_Other : object := {[ "title" := Str "Other" ]}.

Definition cache_A : QueryClient.t := QueryClient.mk {[ posts := [post_A] ]} ∅.

(** A remote side that rejects every request, and a clock reading. *)
Definition rejecting : Request → string + unit := λ _, inl "validation error".
Definition clock : Z := 1700000000000.

(** A create and an update that the remote side rejects, and two creates
    started at the same clock reading. *)
Definition failed_create : Async.t QueryClient.t (string + unit) :=
  Mutation.mutateAsync
    (BaseCrud.create rejecting posts posts_endpoint clock) title_New.

Definition failed_update : Async.t QueryClient.t (string + unit) :=
  Mutation.mutateAsync
    (BaseCrud.update rejecting posts posts_endpoint) (Num 1, title_B).

Definition two_creates : Async.t QueryClient.t BaseCrud.Context :=
  Mutation.onMutate
    (BaseCrud.create rejecting posts posts_endpoint clock) title_New;;
  Mutation.onMutate
    (BaseCrud.create rejecting posts posts_endpoint clock) title_Other.

(** A registry in which the listener [7] was subscribed twice, and one
    with two different listeners; callbacks that do nothing. *)
Definition idle (l : nat) (st : AuthEvents.State nat unit)
    : AuthEvents.Completion nat unit := AuthEvents.Returned st.

Definition subscribed_twice : AuthEvents.State nat unit :=
  (AuthEvents.subscribe 7 (AuthEvents.subscribe 7 (AuthEvents.init tt)).1).1.

Definition subscribed_two : AuthEvents.State nat unit :=
  (AuthEvents.subscribe 2 (AuthEvents.subscribe 1 (AuthEvents.init tt)).1).1.

(** A user, a login answer, and an application with a session and a
    populated cache, and one freshly started. *)
Definition admin : Auth.User :=
  Auth.mkUser (Some "admin") (Some ["posts.read"; "posts.write"]) ∅.

Definition answer : Auth.AuthResponse := Auth.mkResponse "tok" (Some "ref") admin.

Definition serialize (u : Auth.User) : string := "{}".
Definition accepting : Request → string + Auth.AuthResponse := λ _, inr answer.
Definition credentials : object :=
  {[ "email" := Str "a@b.c"; "password" := Str "secret" ]}.

Definition fresh : Auth.App := Auth.mkApp ∅ None QueryClient.empty [].

Definition signed_in : Auth.App :=
  Auth.mkApp {[ Auth.ACCESS_TOKEN_KEY := "tok"; Auth.REFRESH_TOKEN_KEY := "ref";
                Auth.USER_KEY := "{}" ]}
             (Some admin) cache_A [].

End Scenario.

(** ** The rest of the session manager ([useAuth.ts]) *)

Module AuthFlows.

Import Js Http.

(** The hook as a component sees it: the state above and the [loading]
    flag. *)
Record Hook : Type := mkHook { app : Auth.App; loading : bool }.

(** The hook at its first render over a durable storage: no user,
    [loading] true, nothing cached, nothing shown. *)
Definition start (storage : gmap string string) : Hook :=
  mkHook (Auth.mkApp storage None QueryClient.empty []) true.

Definition setLoading (b : bool) : Async.t Hook unit :=
  Async.modify (λ h, mkHook (app h) b).

Definition hook_setUser (u : option Auth.User) : Async.t Hook unit :=
  Async.modify (λ h, mkHook (Auth.mkApp (Auth.storage (app h)) u
                                        (Auth.queryClient (app h))
                                        (Auth.toasts (app h)))
                            (loading h)).

(** The effect that runs on mount:
    [const storedUser = await AsyncStorage.getItem(USER_KEY);
     if (storedUser) setUser(JSON.parse(storedUser)); setLoading(false)].
    [parse] is [JSON.parse], [None] when it throws; the exception ends the
    effect, so [setLoading(false)] is not reached. *)
Definition bootstrap (parse : string → option Auth.User) : Async.t Hook unit :=
  Async.suspend;;
  storedUser ← Async.gets (λ h, Auth.storage (app h) !! Auth.USER_KEY);
  match storedUser with
  | Some v =>
      if bool_decide (v = "") then setLoading false
      else match parse v with
           | Some u => hook_setUser (Some u);; setLoading false
           | None => mret tt
           end
  | None => setLoading false
  end.

Section flows.

Variable stringify : Auth.User → string.
Context {ApiError : Type} `{!ToBoolean ApiError}.
Variable message : ApiError → string.


(** The recovery, OTP and password mutations: a request and, on a
    rejection, [handleAuthError]. *)
Context {Resp : Type}.
Variable api : Request → ApiError + Resp.









End flows.
End AuthFlows.

(** ** The guards ([AuthGuard.tsx], [AuthGate.tsx]) *)

Module Guards.
Section guards.

(** What a guard returns; [Node] is a React node. *)
Context {Node : Type}.

Inductive Rendered : Type :=
| Spinner
| Children (n : Node)
| Fallback (n : Node)
| EmptyState (title description : string)
| Redirected (to : string).

Record AuthGuardProps : Type := mkProps {
  children : Node;
  requireAuth : option bool;
  roles : option (list string);
  permissions : option (list string);
  fallback : option Node
}.

(** [fallback ?? <AppEmptyState title=.. description=.. />]. *)
Definition blocked (p : AuthGuardProps) (title description : string) : Rendered :=
  match fallback p with
  | Some n => Fallback n
  | None => EmptyState title description
  end.

(** [xs && xs.length > 0]. *)
Definition demanded (xs : option (list string)) : bool :=
  match xs with
  | Some (_ :: _) => true
  | _ => false
  end.

Definition AuthGuard (p : AuthGuardProps) (h : AuthFlows.Hook) : Rendered :=
  let user := Auth.user_state (AuthFlows.app h) in
  if AuthFlows.loading h then Spinner
  else if default true (requireAuth p)
          && negb (Auth.isAuthenticated (AuthFlows.app h))
  then blocked p "Authentication required" "Please log in to continue."
  else if demanded (roles p)
          && negb (Js.some (default [] (roles p)) (λ r, Auth.hasRole user r))
  then blocked p "Access denied"
               "You do not have permission to view this page."
  else if demanded (permissions p)
          && negb (Auth.hasAnyPermission user (default [] (permissions p)))
  then blocked p "Permission required"
               "You are not allowed to perform this action."
  else Children (children p).

(** [AuthGate]: [router.replace("/login")] and nothing rendered when there
    is no session. *)
Definition AuthGate (children : Node) (h : AuthFlows.Hook) : Rendered :=
  if AuthFlows.loading h then Spinner
  else if negb (Auth.isAuthenticated (AuthFlows.app h)) then Redirected "/login"
  else Children children.

End guards.
Arguments Rendered : clear implicits.
Arguments AuthGuardProps : clear implicits.
End Guards.

(** ** The keyboard height hook ([useKeyboardHeight.ts]) *)

Module KeyboardHeight.
Section keyboard.

(** Heights are numbers of the platform; the hook only stores them and
    uses [0]. *)
Context {number : Type}.
Variable zero : number.

Record State : Type := mkState {
  keyboardHeight : number;
  keyboardVisible : bool
}.

Definition initial : State := mkState zero false.

(** [onShow(e)] with [e.endCoordinates.height], and [onHide()]. *)
Definition onShow (height : number) (st : State) : State :=
  mkState height true.

Definition onHide (st : State) : State := mkState zero false.

Inductive OS : Type := ios | android | windows | macos | web.

Inductive EventName : Type :=
| keyboardWillShow
| keyboardDidShow
| keyboardWillHide
| keyboardDidHide
| keyboardWillChangeFrame
| keyboardDidChangeFrame.

#[global] Instance event_name_eq_dec : EqDecision EventName.
Proof. solve_decision. Defined.

Definition showEvent (os : OS) : EventName :=
  match os with ios => keyboardWillShow | _ => keyboardDidShow end.

Definition hideEvent (os : OS) : EventName :=
  match os with ios => keyboardWillHide | _ => keyboardDidHide end.

(** A keyboard event of the platform, with the height it carries, reaches
    the listener registered under its name, if there is one. *)
Definition deliver (os : OS) (ev : EventName * number) (st : State) : State :=
  if bool_decide (ev.1 = showEvent os) then onShow ev.2 st
  else if bool_decide (ev.1 = hideEvent os) then onHide st
  else st.

Definition run (os : OS) (evs : list (EventName * number)) (st : State) : State :=
  fold_left (λ s ev, deliver os ev s) evs st.

End keyboard.
Arguments State : clear implicits.
End KeyboardHeight.

(** ** More data for the scenarios *)

Module Cases.

Import Js Http.

(** Another cached collection, and a remote side that accepts every
    mutation. *)
Definition users : QueryClient.QueryKey := [Str "users"].

Definition accepting : Request → string + unit := λ _, inr tt.



(** [JSON.parse] on what [Scenario.serialize] writes. *)
Definition parse (v : string) : option Auth.User :=
  if bool_decide (v = "{}") then Some Scenario.admin else None.

(** A storage whose profile entry is cut off. *)
Definition corrupted : gmap string string :=
  {[ Auth.ACCESS_TOKEN_KEY := "tok"; Auth.USER_KEY := "{" ]}.

(** A registry of three listeners of which the second throws. *)
Definition three : AuthEvents.State nat unit := AuthEvents.mkState [1; 2; 3] tt.

Definition second_throws (l : nat) (st : AuthEvents.State nat unit)
    : AuthEvents.Completion nat unit :=
  if bool_decide (l = 2) then AuthEvents.Thrown st else AuthEvents.Returned st.

(** A guard for administrators that does not ask for a session, and the
    hook with the administrator signed in and with nobody. *)
Definition admins_only : Guards.AuthGuardProps unit :=
  Guards.mkProps tt (Some false) (Some ["admin"]) None None.

Definition hook_signed_in : AuthFlows.Hook :=
  AuthFlows.mkHook Scenario.signed_in false.

Definition hook_anonymous : AuthFlows.Hook :=
  AuthFlows.mkHook Scenario.fresh false.

(** The keyboard shown with height 300 and hidden again, on Android. *)
Definition shown_then_hidden : list (KeyboardHeight.EventName * Z) :=
  [(KeyboardHeight.keyboardDidShow, 300%Z); (KeyboardHeight.keyboardDidHide, 0%Z)].

End Cases.

(** * Properties *)

(** ** The event bus *)

Section bus_facts.

Context {Listener : Type} `{EqDecision Listener}.

Lemma forEach_prefix {W} (call : Listener → AuthEvents.State Listener W
                                 → AuthEvents.Completion Listener W) xs st :
  (AuthEvents.forEach call xs st).1 `prefix_of` xs.
Proof.
  revert st. induction xs as [|l xs IH]; intros st; simpl; [done|].
  destruct (call l st) as [st'|st'].
  - specialize (IH st').
    destruct (AuthEvents.forEach call xs st') as [calls c].
    simpl in *. by apply prefix_cons.
  - simpl. apply prefix_cons, prefix_nil.
Qed.

Lemma forEach_returned {W} (call : Listener → AuthEvents.State Listener W
                                   → AuthEvents.Completion Listener W) xs st st' :
  (AuthEvents.forEach call xs st).2 = AuthEvents.Returned st' →
  (AuthEvents.forEach call xs st).1 = xs.
Proof.
  revert st. induction xs as [|l xs IH]; intros st; simpl; [done|].
  destruct (call l st) as [st1|st1]; [|done].
  specialize (IH st1).
  destruct (AuthEvents.forEach call xs st1) as [calls c].
  simpl in *. intros Hc. by rewrite IH.
Qed.

Lemma forEach_call_async {S} (body : Listener → Async.t S unit) xs ls a q :
  AuthEvents.forEach (AuthEvents.call_async body) xs
    (AuthEvents.mkState ls (AuthEvents.mkProcess a q))
  = (xs, AuthEvents.Returned
           (AuthEvents.mkState ls (AuthEvents.mkProcess a (q ++ map body xs)))).
Proof.
  revert q. induction xs as [|l xs IH]; intros q; simpl.
  - by rewrite app_nil_r.
  - unfold AuthEvents.call_async at 1. simpl.
    by rewrite IH, <- app_assoc.
Qed.

Lemma times_filter_ne (fn g : Listener) (xs : list Listener) :
  g ≠ fn →
  AuthEvents.times g (filter (λ l, l ≠ fn) xs) = AuthEvents.times g xs.
Proof.
  intros Hne. unfold AuthEvents.times.
  induction xs as [|x xs IH]; [done|].
  rewrite !filter_cons.
  destruct (decide (x ≠ fn)) as [Hx|Hx].
  - rewrite filter_cons. destruct (decide (x = g)); simpl; by rewrite IH.
  - destruct (decide (x = g)) as [->|]; [|done].
    by destruct Hx.
Qed.

Lemma filter_ne_idemp (fn : Listener) (xs : list Listener) :
  filter (λ l, l ≠ fn) (filter (λ l, l ≠ fn) xs) = filter (λ l, l ≠ fn) xs.
Proof.
  induction xs as [|x xs IH]; [done|].
  rewrite filter_cons. destruct (decide (x ≠ fn)) as [Hx|Hx]; [|done].
  rewrite filter_cons. destruct (decide (x ≠ fn)); [|done]. by rewrite IH.
Qed.

Lemma filter_ne_fresh (fn : Listener) (xs : list Listener) :
  fn ∉ xs → filter (λ l, l ≠ fn) xs = xs.
Proof.
  intros Hfresh. induction xs as [|x xs IH]; [done|].
  apply not_elem_of_cons in Hfresh as [Hx Hxs].
  rewrite filter_cons. destruct (decide (x ≠ fn)) as [|Heq].
  - by rewrite IH.
  - destruct Heq. by intros ->.
Qed.

(** C8, as amended: the calls [emitLogout] makes are an initial part of
    the registry as it is when the emission starts, in its order, which is
    the order of subscription; when [emitLogout] returns it has called
    every registered listener, once for every time the listener was
    subscribed, so exactly once when it was subscribed once.  When the
    listeners are asynchronous, [emitLogout] returns with the application
    state as it was and their bodies still to run. *)
Theorem C8_emit_calls_registered_in_order :
  (∀ W (call : Listener → AuthEvents.State Listener W
               → AuthEvents.Completion Listener W) st,
      let calls := (AuthEvents.emitLogout call st).1 in
      calls `prefix_of` AuthEvents.listeners st
      ∧ ∀ st', (AuthEvents.emitLogout call st).2 = AuthEvents.Returned st' →
          calls = AuthEvents.listeners st
          ∧ (∀ l, AuthEvents.times l calls
                  = AuthEvents.times l (AuthEvents.listeners st))
          ∧ (∀ l, AuthEvents.times l (AuthEvents.listeners st) = 1
                  → AuthEvents.times l calls = 1))
  ∧ (∀ S (body : Listener → Async.t S unit) ls a q,
      AuthEvents.emitLogout (AuthEvents.call_async body)
        (AuthEvents.mkState ls (AuthEvents.mkProcess a q))
      = (ls, AuthEvents.Returned
               (AuthEvents.mkState ls
                  (AuthEvents.mkProcess a (q ++ map body ls))))).
Proof.
  split.
  - intros W call st calls. subst calls. unfold AuthEvents.emitLogout.
    split; [apply forEach_prefix|].
    intros st' Hret. by rewrite (forEach_returned _ _ _ st').
  - intros S body ls a q. unfold AuthEvents.emitLogout. simpl.
    apply forEach_call_async.
Qed.

(** C9: the closure returned by [subscribe fn] removes [fn] from the
    registry, whenever it is called, and leaves every other listener
    registered, in the same order; calling it again changes nothing; and
    when [fn] was not registered before, subscribing and unsubscribing
    gives the registry back. *)
Theorem C9_unsubscribe_exact_idempotent {W} (fn : Listener)
    (st : AuthEvents.State Listener W) :
  let st1 := (AuthEvents.subscribe fn st).1 in
  let unsub := (AuthEvents.subscribe fn st).2 in
  AuthEvents.listeners st1 = AuthEvents.listeners st ++ [fn]
  ∧ (∀ st', fn ∉ AuthEvents.listeners (unsub st'))
  ∧ (∀ st', AuthEvents.listeners (unsub st')
            = filter (λ l, l ≠ fn) (AuthEvents.listeners st')
            ∧ AuthEvents.world (unsub st') = AuthEvents.world st')
  ∧ (∀ st' g, g ≠ fn →
       (g ∈ AuthEvents.listeners (unsub st') ↔ g ∈ AuthEvents.listeners st')
       ∧ AuthEvents.times g (AuthEvents.listeners (unsub st'))
         = AuthEvents.times g (AuthEvents.listeners st'))
  ∧ (∀ st', unsub (unsub st') = unsub st')
  ∧ (fn ∉ AuthEvents.listeners st → unsub st1 = st).
Proof.
  simpl. split_and!.
  - done.
  - intros st' Hin. simpl in Hin.
    apply list_elem_of_filter in Hin as [Hne _]. done.
  - done.
  - intros st' g Hne. simpl. split.
    + rewrite list_elem_of_filter. split; [by intros [_ ?]|by intros ?].
    + by apply times_filter_ne.
  - intros st'. unfold AuthEvents.unsubscribe. simpl.
    by rewrite filter_ne_idemp.
  - intros Hfresh. unfold AuthEvents.unsubscribe. simpl.
    rewrite filter_app, filter_ne_fresh by done.
    rewrite filter_cons. destruct (decide (fn ≠ fn)); [done|].
    rewrite filter_nil, app_nil_r. by destruct st.
Qed.

End bus_facts.

(** ** The query cache *)

Section cache_facts.

Implicit Types (qc : QueryClient.t) (key : QueryClient.QueryKey).

Lemma get_setQueryData key f qc :
  QueryClient.getQueryData key (QueryClient.setQueryData key f qc)
  = Some (f (QueryClient.getQueryData key qc)).
Proof. unfold QueryClient.getQueryData. simpl. by rewrite lookup_insert_eq. Qed.

Lemma get_setQueryData_ne key key' f qc :
  key ≠ key' →
  QueryClient.getQueryData key' (QueryClient.setQueryData key f qc)
  = QueryClient.getQueryData key' qc.
Proof.
  intros Hne. unfold QueryClient.getQueryData. simpl.
  by rewrite lookup_insert_ne.
Qed.

Lemma get_invalidateQueries key key' qc :
  QueryClient.getQueryData key' (QueryClient.invalidateQueries key qc)
  = QueryClient.getQueryData key' qc.
Proof. done. Qed.

Lemma queries_restore key f p qc :
  QueryClient.getQueryData key qc = Some p →
  QueryClient.queries
    (QueryClient.setQueryData key (λ _, p) (QueryClient.setQueryData key f qc))
  = QueryClient.queries qc.
Proof.
  unfold QueryClient.getQueryData. intros Hp. simpl.
  rewrite insert_insert_eq. by apply insert_id.
Qed.

Lemma invalidated_after key qc :
  is_Some (QueryClient.getQueryData key qc) →
  key ∈ QueryClient.invalidated (QueryClient.invalidateQueries key qc).
Proof.
  intros Hk. simpl. apply elem_of_union_r, elem_of_filter.
  split; [done|]. by apply elem_of_dom.
Qed.

Lemma get_clear key qc :
  QueryClient.getQueryData key (QueryClient.clear qc) = None.
Proof. unfold QueryClient.getQueryData. simpl. apply lookup_empty. Qed.

End cache_facts.

(** ** The optimistic mutation engine *)

Ltac run_async :=
  unfold Async.observable, Async.final, Async.result, Async.suspended,
    Mutation.mutateAsync, Mutation.skip, Http.request,
    BaseCrud.rollback, BaseCrud.cancelQueries, BaseCrud.getQueryData,
    BaseCrud.setQueryData, BaseCrud.invalidateQueries,
    mbind, mret, async_bind, async_ret,
    Async.bind, Async.ret, Async.gets, Async.modify, Async.suspend;
  simpl.

Section crud_facts.

Import Js Http.

Context {ApiError Resp : Type}.
Variable api : Request → ApiError + Resp.
Variable queryKey : QueryClient.QueryKey.
Variable endpoint : string.

Implicit Types (qc : QueryClient.t) (data : object) (id : prim).

Lemma create_rejected now data err qc :
  api (mkRequest POST endpoint (Some data)) = inl err →
  Mutation.mutateAsync (BaseCrud.create api queryKey endpoint now) data qc
  = (inl err,
     Scenario.settled_failure queryKey (BaseCrud.appended now data) qc,
     [qc; QueryClient.setQueryData queryKey (BaseCrud.appended now data) qc]).
Proof.
  intros Hfail. unfold Scenario.settled_failure. run_async. rewrite Hfail.
  run_async. by destruct (QueryClient.getQueryData queryKey qc).
Qed.

Lemma update_rejected id data err qc :
  api (mkRequest PUT (endpoint +:+ "/" +:+ to_string id +:+ "/") (Some data))
  = inl err →
  Mutation.mutateAsync (BaseCrud.update api queryKey endpoint) (id, data) qc
  = (inl err,
     Scenario.settled_failure queryKey (BaseCrud.merged id data) qc,
     [qc; QueryClient.setQueryData queryKey (BaseCrud.merged id data) qc]).
Proof.
  intros Hfail. unfold Scenario.settled_failure. run_async. rewrite Hfail.
  run_async. by destruct (QueryClient.getQueryData queryKey qc).
Qed.

Lemma remove_rejected id err qc :
  api (mkRequest DELETE (endpoint +:+ "/" +:+ to_string id +:+ "/") None)
  = inl err →
  Mutation.mutateAsync (BaseCrud.remove api queryKey endpoint) id qc
  = (inl err,
     Scenario.settled_failure queryKey (BaseCrud.without id) qc,
     [qc; QueryClient.setQueryData queryKey (BaseCrud.without id) qc]).
Proof.
  intros Hfail. unfold Scenario.settled_failure. run_async. rewrite Hfail.
  run_async. by destruct (QueryClient.getQueryData queryKey qc).
Qed.

Lemma settled_failure_present f qc entry :
  QueryClient.getQueryData queryKey qc = Some entry →
  QueryClient.getQueryData queryKey (Scenario.settled_failure queryKey f qc) = Some entry
  ∧ QueryClient.queries (Scenario.settled_failure queryKey f qc) = QueryClient.queries qc.
Proof.
  intros Hentry. unfold Scenario.settled_failure. rewrite Hentry. split.
  - by rewrite get_invalidateQueries, get_setQueryData.
  - simpl. rewrite insert_insert_eq. by apply insert_id.
Qed.

Lemma settled_failure_absent f qc :
  QueryClient.getQueryData queryKey qc = None →
  QueryClient.getQueryData queryKey (Scenario.settled_failure queryKey f qc) = Some (f None)
  ∧ queryKey ∈ QueryClient.invalidated (Scenario.settled_failure queryKey f qc).
Proof.
  intros Habsent. unfold Scenario.settled_failure. rewrite Habsent. split.
  - by rewrite get_invalidateQueries, get_setQueryData, Habsent.
  - apply invalidated_after. rewrite get_setQueryData. eauto.
Qed.

End crud_facts.

(** ** The event bus on concrete registries *)

(** C8, as stated, fails: a listener subscribed twice is registered twice,
    and one emission calls it twice. *)
Lemma C8_counterexample_subscribed_twice :
  AuthEvents.listeners Scenario.subscribed_twice = [7; 7]
  ∧ (AuthEvents.emitLogout Scenario.idle Scenario.subscribed_twice).1 = [7; 7]
  ∧ ¬ (∀ l, l ∈ AuthEvents.listeners Scenario.subscribed_twice →
            AuthEvents.times l
              (AuthEvents.emitLogout Scenario.idle Scenario.subscribed_twice).1
            = 1).
Proof.
  split_and!; [done|done|].
  intros Hall.
  assert (7 ∈ [7; 7]) as Hin by apply list_elem_of_here.
  apply Hall in Hin. vm_compute in Hin. discriminate.
Qed.

Lemma C8_witness :
  AuthEvents.times 1 (AuthEvents.listeners Scenario.subscribed_two) = 1
  ∧ AuthEvents.times 1
      (AuthEvents.emitLogout Scenario.idle Scenario.subscribed_two).1 = 1.
Proof.
  split; [reflexivity|].
  apply (proj2 (proj1 (@C8_emit_calls_registered_in_order nat _) unit
                  Scenario.idle Scenario.subscribed_two)
           Scenario.subscribed_two eq_refl).
  reflexivity.
Defined.

Lemma C9_witness :
  (3 ∉ AuthEvents.listeners Scenario.subscribed_two)
  ∧ snd (AuthEvents.subscribe 3 Scenario.subscribed_two)
        (fst (AuthEvents.subscribe 3 Scenario.subscribed_two))
    = Scenario.subscribed_two.
Proof.
  assert (3 ∉ AuthEvents.listeners Scenario.subscribed_two) as Hfresh.
  { intros Hin. vm_compute in Hin. repeat (apply elem_of_cons in Hin as [|Hin]; [done|]).
    by apply elem_of_nil in Hin. }
  split; [exact Hfresh|].
  apply (C9_unsubscribe_exact_idempotent 3 Scenario.subscribed_two). exact Hfresh.
Defined.

(** ** Rollback, optimistic application, temporary identifiers *)

Section crud_claims.

Import Js Http.

Context {ApiError Resp : Type}.
Variable api : Request → ApiError + Resp.
Variable queryKey : QueryClient.QueryKey.
Variable endpoint : string.

(** C1, as amended: when the cache holds an entry under the key at the
    start of a create, update or remove whose remote call fails, the entry
    under the key after the mutation has settled is that entry, the data of
    the whole cache is what it was, and the caller gets the error. *)
Theorem C1_rollback_restores_present_entry (qc : QueryClient.t)
    (entry : QueryClient.Data) :
  QueryClient.getQueryData queryKey qc = Some entry →
  (∀ now data err,
      api (mkRequest POST endpoint (Some data)) = inl err →
      let run := Mutation.mutateAsync
                   (BaseCrud.create api queryKey endpoint now) data in
      QueryClient.getQueryData queryKey (Async.final run qc) = Some entry
      ∧ QueryClient.queries (Async.final run qc) = QueryClient.queries qc
      ∧ Async.result run qc = inl err)
  ∧ (∀ id data err,
      api (mkRequest PUT (endpoint +:+ "/" +:+ to_string id +:+ "/")
             (Some data)) = inl err →
      let run := Mutation.mutateAsync
                   (BaseCrud.update api queryKey endpoint) (id, data) in
      QueryClient.getQueryData queryKey (Async.final run qc) = Some entry
      ∧ QueryClient.queries (Async.final run qc) = QueryClient.queries qc
      ∧ Async.result run qc = inl err)
  ∧ (∀ id err,
      api (mkRequest DELETE (endpoint +:+ "/" +:+ to_string id +:+ "/")
             None) = inl err →
      let run := Mutation.mutateAsync
                   (BaseCrud.remove api queryKey endpoint) id in
      QueryClient.getQueryData queryKey (Async.final run qc) = Some entry
      ∧ QueryClient.queries (Async.final run qc) = QueryClient.queries qc
      ∧ Async.result run qc = inl err).
Proof.
  intros Hentry. split_and!.
  - intros now data err Hfail run. subst run.
    unfold Async.final, Async.result.
    rewrite (create_rejected _ _ _ _ _ err) by done. simpl.
    by destruct (settled_failure_present queryKey
                   (BaseCrud.appended now data) qc entry Hentry).
  - intros id data err Hfail run. subst run.
    unfold Async.final, Async.result.
    rewrite (update_rejected _ _ _ _ _ err) by done. simpl.
    by destruct (settled_failure_present queryKey
                   (BaseCrud.merged id data) qc entry Hentry).
  - intros id err Hfail run. subst run.
    unfold Async.final, Async.result.
    rewrite (remove_rejected _ _ _ _ err) by done. simpl.
    by destruct (settled_failure_present queryKey
                   (BaseCrud.without id) qc entry Hentry).
Qed.

(** C10: when the cache holds nothing under the key at the start of a
    create, update or remove whose remote call fails, the entry is not
    taken away again: after the mutation has settled the key holds the
    collection that was written optimistically, marked for a refetch. *)
Theorem C10_absent_entry_keeps_optimistic (qc : QueryClient.t) :
  QueryClient.getQueryData queryKey qc = None →
  (∀ now data err,
      api (mkRequest POST endpoint (Some data)) = inl err →
      let run := Mutation.mutateAsync
                   (BaseCrud.create api queryKey endpoint now) data in
      QueryClient.getQueryData queryKey (Async.final run qc)
      = Some [<["id" := BaseCrud.temp_id now]> data]
      ∧ queryKey ∈ QueryClient.invalidated (Async.final run qc)
      ∧ Async.result run qc = inl err)
  ∧ (∀ id data err,
      api (mkRequest PUT (endpoint +:+ "/" +:+ to_string id +:+ "/")
             (Some data)) = inl err →
      let run := Mutation.mutateAsync
                   (BaseCrud.update api queryKey endpoint) (id, data) in
      QueryClient.getQueryData queryKey (Async.final run qc) = Some []
      ∧ queryKey ∈ QueryClient.invalidated (Async.final run qc)
      ∧ Async.result run qc = inl err)
  ∧ (∀ id err,
      api (mkRequest DELETE (endpoint +:+ "/" +:+ to_string id +:+ "/")
             None) = inl err →
      let run := Mutation.mutateAsync
                   (BaseCrud.remove api queryKey endpoint) id in
      QueryClient.getQueryData queryKey (Async.final run qc) = Some []
      ∧ queryKey ∈ QueryClient.invalidated (Async.final run qc)
      ∧ Async.result run qc = inl err).
Proof.
  intros Habsent. split_and!.
  - intros now data err Hfail run. subst run.
    unfold Async.final, Async.result.
    rewrite (create_rejected _ _ _ _ _ err) by done. simpl.
    by destruct (settled_failure_absent queryKey
                   (BaseCrud.appended now data) qc Habsent).
  - intros id data err Hfail run. subst run.
    unfold Async.final, Async.result.
    rewrite (update_rejected _ _ _ _ _ err) by done. simpl.
    by destruct (settled_failure_absent queryKey
                   (BaseCrud.merged id data) qc Habsent).
  - intros id err Hfail run. subst run.
    unfold Async.final, Async.result.
    rewrite (remove_rejected _ _ _ _ err) by done. simpl.
    by destruct (settled_failure_absent queryKey
                   (BaseCrud.without id) qc Habsent).
Qed.

End crud_claims.

(** C1, as stated, fails when the key holds nothing at the start: after a
    rejected create on an empty cache the key holds the optimistic
    collection, not nothing. *)
Lemma C1_counterexample_absent_entry :
  QueryClient.getQueryData Scenario.posts QueryClient.empty = None
  ∧ Async.result Scenario.failed_create QueryClient.empty = inl "validation error"
  ∧ QueryClient.getQueryData Scenario.posts
      (Async.final Scenario.failed_create QueryClient.empty)
    = Some [ {[ "id" := Js.Str "temp-1700000000000"; "title" := Js.Str "New" ]} ]
  ∧ QueryClient.getQueryData Scenario.posts
      (Async.final Scenario.failed_create QueryClient.empty)
    ≠ QueryClient.getQueryData Scenario.posts QueryClient.empty.
Proof.
  split_and!; [done|done|by vm_compute|by vm_compute].
Qed.

Lemma C1_witness :
  QueryClient.getQueryData Scenario.posts Scenario.cache_A
  = Some [Scenario.post_A]
  ∧ QueryClient.getQueryData Scenario.posts
      (Async.final Scenario.failed_update Scenario.cache_A)
    = Some [Scenario.post_A].
Proof.
  assert (QueryClient.getQueryData Scenario.posts Scenario.cache_A
          = Some [Scenario.post_A]) as Hentry by (by vm_compute).
  split; [exact Hentry|].
  apply (proj1 (proj2 (C1_rollback_restores_present_entry
                         Scenario.rejecting Scenario.posts
                         Scenario.posts_endpoint Scenario.cache_A
                         [Scenario.post_A] Hentry))
           (Js.Num 1) Scenario.title_B "validation error").
  reflexivity.
Defined.

Lemma C10_witness :
  QueryClient.getQueryData Scenario.posts QueryClient.empty = None
  ∧ QueryClient.getQueryData Scenario.posts
      (Async.final Scenario.failed_update QueryClient.empty)
    = Some [].
Proof.
  assert (QueryClient.getQueryData Scenario.posts QueryClient.empty = None)
    as Habsent by (by vm_compute).
  split; [exact Habsent|].
  apply (proj1 (proj2 (C10_absent_entry_keeps_optimistic
                         Scenario.rejecting Scenario.posts
                         Scenario.posts_endpoint QueryClient.empty Habsent))
           (Js.Num 1) Scenario.title_B "validation error").
  reflexivity.
Defined.

Section update_claim.

Import Js Http.

Lemma spread_lookup (item data : object) (f : string) :
  spread item data !! f
  = match data !! f with Some v => Some v | None => item !! f end.
Proof.
  unfold spread. rewrite lookup_union.
  by destruct (data !! f), (item !! f).
Qed.

(** C6: an update writes, before the remote call is answered, the
    collection in which every entity with the given identifier is the
    shallow merge of the entity and the new fields and every other entity
    is as it was; on the entry [[{id:1,title:"A"}]] the cache reads
    [[{id:1,title:"B"}]] while [update(1, {title:"B"})] is in flight and
    [[{id:1,title:"A"}]] again once the remote side has rejected it. *)
Theorem C6_update_writes_shallow_merge :
  (∀ ApiError Resp (api : Request → ApiError + Resp)
     (queryKey : QueryClient.QueryKey) endpoint id (data : object)
     (qc : QueryClient.t),
      let run := Mutation.mutateAsync
                   (BaseCrud.update api queryKey endpoint) (id, data) in
      let old := default [] (QueryClient.getQueryData queryKey qc) in
      ∃ applied new,
        Async.suspended run qc = [qc; applied]
        ∧ QueryClient.getQueryData queryKey applied = Some new
        ∧ length new = length old
        ∧ ∀ i item, old !! i = Some item →
            ∃ item', new !! i = Some item'
              ∧ (get item "id" = id →
                 ∀ f, item' !! f = match data !! f with
                                   | Some v => Some v
                                   | None => item !! f
                                   end)
              ∧ (get item "id" ≠ id → item' = item))
  ∧ (QueryClient.getQueryData Scenario.posts
       <$> Async.observable Scenario.failed_update Scenario.cache_A
     = [Some [Scenario.post_A]; Some [Scenario.post_B]; Some [Scenario.post_A]]
     ∧ Async.result Scenario.failed_update Scenario.cache_A
       = inl "validation error").
Proof.
  split.
  - intros ApiError Resp api queryKey endpoint id data qc run old.
    exists (QueryClient.setQueryData queryKey (BaseCrud.merged id data) qc),
           (BaseCrud.merged id data (QueryClient.getQueryData queryKey qc)).
    split_and!.
    + subst run. clear old. run_async.
      destruct (api _); run_async; [|done].
      by destruct (QueryClient.getQueryData queryKey qc).
    + apply get_setQueryData.
    + unfold BaseCrud.merged. by rewrite length_fmap.
    + intros i item Hi. unfold BaseCrud.merged. fold old.
      rewrite list_lookup_fmap, Hi. simpl. eexists. split; [done|].
      unfold strict_eq. case_bool_decide; split; try done.
      intros _ f. apply spread_lookup.
  - split; by vm_compute.
Qed.

End update_claim.

Lemma C6_witness :
  [Scenario.post_A] !! 0 = Some Scenario.post_A
  ∧ Js.get Scenario.post_A "id" = Js.Num 1
  ∧ ∃ applied new,
      Async.suspended Scenario.failed_update Scenario.cache_A
      = [Scenario.cache_A; applied]
      ∧ QueryClient.getQueryData Scenario.posts applied = Some new
      ∧ ∃ item', new !! 0 = Some item' ∧ item' !! "title" = Some (Js.Str "B").
Proof.
  split; [reflexivity|]. split; [by vm_compute|].
  destruct (proj1 C6_update_writes_shallow_merge string unit Scenario.rejecting
              Scenario.posts Scenario.posts_endpoint (Js.Num 1) Scenario.title_B
              Scenario.cache_A)
    as (applied & new & Hobs & Hnew & _ & Hitems).
  exists applied, new. split; [exact Hobs|]. split; [exact Hnew|].
  destruct (Hitems 0 Scenario.post_A) as (item' & Hitem' & Hmerge & _).
  { by vm_compute. }
  exists item'. split; [exact Hitem'|].
  rewrite (Hmerge ltac:(by vm_compute) "title"). by vm_compute.
Defined.

Section temporary_identifiers.

Import Js Http.

Lemma temp_id_inj (now1 now2 : Z) :
  BaseCrud.temp_id now1 = BaseCrud.temp_id now2 → now1 = now2.
Proof.
  unfold BaseCrud.temp_id, string_of_number. intros Heq.
  injection Heq as Heq. change (pretty now1 = pretty now2) in Heq.
  by apply (inj pretty) in Heq.
Qed.

(** C4, as amended: the identifier of the entity a create inserts is the
    string ["temp-"] followed by the clock reading of its [onMutate]; two
    creates get different identifiers exactly when their clock readings
    differ; the identifier is no number and no string without the prefix
    ["temp-"]. *)
Theorem C4_temp_id_follows_clock :
  (∀ ApiError Resp (api : Request → ApiError + Resp)
     (queryKey : QueryClient.QueryKey) endpoint now (data : object)
     (qc : QueryClient.t),
      QueryClient.getQueryData queryKey
        (Async.final
           (Mutation.onMutate (BaseCrud.create api queryKey endpoint now) data)
           qc)
      = Some (default [] (QueryClient.getQueryData queryKey qc)
              ++ [<["id" := BaseCrud.temp_id now]> data])
      ∧ get (<["id" := BaseCrud.temp_id now]> data) "id"
        = Str ("temp-" +:+ string_of_number now))
  ∧ (∀ now1 now2,
      BaseCrud.temp_id now1 = BaseCrud.temp_id now2 ↔ now1 = now2)
  ∧ (∀ now n, BaseCrud.temp_id now ≠ Num n)
  ∧ (∀ now s, String.prefix "temp-" s = false → BaseCrud.temp_id now ≠ Str s).
Proof.
  split_and!.
  - intros ApiError Resp api queryKey endpoint now data qc. split.
    + run_async. apply get_setQueryData.
    + unfold get. by rewrite lookup_insert_eq.
  - intros now1 now2. split; [apply temp_id_inj|by intros ->].
  - done.
  - intros now s Hprefix Heq. unfold BaseCrud.temp_id in Heq.
    injection Heq as <-. simpl in Hprefix.
    repeat (destruct (Ascii.ascii_dec _ _); [|done]).
    by destruct (string_of_number now).
Qed.

End temporary_identifiers.

(** C4, as stated, fails: two creates whose [onMutate] reads the same clock
    value insert two entities with the same temporary identifier. *)
Lemma C4_counterexample_same_clock_reading :
  Scenario.title_New ≠ Scenario.title_Other
  ∧ (λ e, Js.get e "id")
      <$> default [] (QueryClient.getQueryData Scenario.posts
                        (Async.final Scenario.two_creates QueryClient.empty))
    = [Js.Str "temp-1700000000000"; Js.Str "temp-1700000000000"].
Proof.
  split; [|by vm_compute].
  intros Heq. apply (f_equal (λ o : Js.object, o !! "title")) in Heq.
  vm_compute in Heq. discriminate.
Qed.

Lemma C4_witness :
  String.prefix "temp-" "42" = false
  ∧ BaseCrud.temp_id Scenario.clock ≠ Js.Str "42".
Proof.
  split; [reflexivity|].
  apply (proj2 (proj2 (proj2 C4_temp_id_follows_clock)) Scenario.clock "42").
  reflexivity.
Defined.

(** ** The session manager *)

Ltac run_auth :=
  unfold Auth.logout, Auth.onLogoutEvent, Auth.clearAuth, Auth.saveAuth,
    Auth.handleAuthError, Auth.setItem, Auth.multiRemove, Auth.setUser,
    Auth.queryClient_clear, Auth.toast_error;
  run_async.

Section role_claims.

Import Js.

Lemma includes_elem_of (xs : list string) (x : string) :
  includes xs x = true ↔ x ∈ xs.
Proof.
  unfold includes. induction xs as [|y xs IH]; simpl.
  - split; [done|]. by intros ?%elem_of_nil.
  - rewrite orb_true_iff, IH, elem_of_cons, bool_decide_eq_true.
    split; (intros [->|?]; [by left|by right]).
Qed.

Lemma some_exists {A} (xs : list A) (p : A → bool) :
  some xs p = true ↔ ∃ x, x ∈ xs ∧ p x = true.
Proof.
  unfold some. induction xs as [|y xs IH]; simpl.
  - split; [done|]. by intros (x & ?%elem_of_nil & _).
  - rewrite orb_true_iff, IH. split.
    + intros [Hy|(x & Hx & Hp)].
      * exists y. split; [apply list_elem_of_here|done].
      * exists x. split; [by apply list_elem_of_further|done].
    + intros (x & [->|Hx]%elem_of_cons & Hp); [by left|].
      right. by exists x.
Qed.

(** C7: [hasRole r] holds exactly when there is a user whose role is [r];
    [hasPermission p] exactly when there is a user whose permissions
    contain [p]; [hasAnyPermission perms] exactly when some element of
    [perms] is such a permission; without a user all three are false. *)
Theorem C7_role_and_permission_checks (u : option Auth.User) :
  (∀ r, Auth.hasRole u r = true
        ↔ ∃ usr, u = Some usr ∧ Auth.role usr = Some r)
  ∧ (∀ p, Auth.hasPermission u p = true
          ↔ ∃ usr ps, u = Some usr ∧ Auth.permissions usr = Some ps ∧ p ∈ ps)
  ∧ (∀ perms, Auth.hasAnyPermission u perms = true
              ↔ ∃ p usr ps, p ∈ perms ∧ u = Some usr
                            ∧ Auth.permissions usr = Some ps ∧ p ∈ ps)
  ∧ (u = None →
     ∀ r p perms, Auth.hasRole u r = false
                  ∧ Auth.hasPermission u p = false
                  ∧ Auth.hasAnyPermission u perms = false).
Proof.
  assert (∀ p, Auth.hasPermission u p = true
               ↔ ∃ usr ps, u = Some usr ∧ Auth.permissions usr = Some ps
                           ∧ p ∈ ps) as Hperm.
  { intros p. unfold Auth.hasPermission, Auth.permissions_of.
    rewrite includes_elem_of.
    destruct u as [usr|]; simpl.
    - destruct (Auth.permissions usr) as [ps|] eqn:Hps; simpl.
      + split; [by exists usr, ps|].
        intros (usr' & ps' & Hu & Hps' & Hin). injection Hu as <-.
        rewrite Hps in Hps'. by injection Hps' as <-.
      + split; [by intros ?%elem_of_nil|].
        intros (usr' & ps' & Hu & Hps' & _). injection Hu as <-.
        by rewrite Hps in Hps'.
    - split; [by intros ?%elem_of_nil|]. by intros (? & ? & ? & _). }
  split_and!.
  - intros r. unfold Auth.hasRole, Auth.role_of.
    rewrite bool_decide_eq_true. destruct u as [usr|]; simpl.
    + split; [by exists usr|].
      intros (usr' & Hu & Hr). by injection Hu as <-.
    + split; [done|]. by intros (? & ? & _).
  - exact Hperm.
  - intros perms. unfold Auth.hasAnyPermission. rewrite some_exists.
    split.
    + intros (p & Hp & Hinc). apply Hperm in Hinc as (usr & ps & ? & ? & ?).
      by exists p, usr, ps.
    + intros (p & usr & ps & Hp & ? & ? & ?). exists p. split; [done|].
      apply Hperm. by exists usr, ps.
  - intros -> r p perms. split_and!; [done|done|].
    unfold Auth.hasAnyPermission, some. simpl.
    induction perms as [|q perms IH]; [done|]. simpl. exact IH.
Qed.

End role_claims.

Lemma C7_witness :
  (None : option Auth.User) = None
  ∧ Auth.hasRole None "admin" = false
  ∧ Auth.hasPermission None "posts.read" = false
  ∧ Auth.hasAnyPermission None ["posts.read"; "posts.write"] = false.
Proof.
  split; [reflexivity|].
  apply (proj2 (proj2 (proj2 (C7_role_and_permission_checks None))) eq_refl
           "admin" "posts.read" ["posts.read"; "posts.write"]).
Defined.

Section session_claims.

Import Js Http.

Lemma keys_distinct :
  Auth.ACCESS_TOKEN_KEY ≠ Auth.REFRESH_TOKEN_KEY
  ∧ Auth.ACCESS_TOKEN_KEY ≠ Auth.USER_KEY
  ∧ Auth.REFRESH_TOKEN_KEY ≠ Auth.USER_KEY.
Proof. done. Qed.

Lemma onSuccess_observable stringify (data : Auth.AuthResponse) (a : Auth.App) :
  let run := (Auth.saveAuth stringify data;;
              Auth.setUser (Some (Auth.user data));;
              Auth.queryClient_clear) : Auth.M unit in
  Forall (λ s, Auth.user_state s = Auth.user_state a
               ∧ (Auth.storage s !! Auth.ACCESS_TOKEN_KEY
                  = Auth.storage a !! Auth.ACCESS_TOKEN_KEY
                  ∨ Auth.storage s !! Auth.ACCESS_TOKEN_KEY
                    = Some (Auth.access data)))
         (Async.suspended run a)
  ∧ Auth.user_state (Async.final run a) = Some (Auth.user data)
  ∧ Scenario.persisted stringify data (Async.final run a).
Proof.
  destruct keys_distinct as (Har & Hau & Hru).
  intros run. subst run. unfold Scenario.persisted. run_auth.
  destruct (Auth.refresh data) as [r|]; [case_bool_decide|]; simpl;
    repeat first [apply Forall_cons; split | by apply Forall_nil | split];
    simpl; try done; try (by simplify_map_eq);
    try (by left); right; by simplify_map_eq.
Qed.

Context {ApiError : Type} `{!ToBoolean ApiError}.
Variable stringify : Auth.User → string.
Variable message : ApiError → string.
Variable api : Request → ApiError + Auth.AuthResponse.

Lemma login_accepted payload data (a : Auth.App) :
  api (mkRequest POST "/auth/login/" (Some payload)) = inr data →
  Mutation.mutateAsync (Auth.login stringify message api) payload a
  = let run := (Auth.saveAuth stringify data;;
                Auth.setUser (Some (Auth.user data));;
                Auth.queryClient_clear) : Auth.M unit in
    (inr data, Async.final run a, a :: Async.suspended run a).
Proof.
  intros Hok. run_auth. rewrite Hok. run_auth.
  destruct (Auth.refresh data) as [r|]; [case_bool_decide|]; done.
Qed.

Lemma register_accepted payload data (a : Auth.App) :
  api (mkRequest POST "/auth/register/" (Some payload)) = inr data →
  Mutation.mutateAsync (Auth.register stringify message api) payload a
  = let run := (Auth.saveAuth stringify data;;
                Auth.setUser (Some (Auth.user data));;
                Auth.queryClient_clear) : Auth.M unit in
    (inr data, Async.final run a, a :: Async.suspended run a).
Proof.
  intros Hok. run_auth. rewrite Hok. run_auth.
  destruct (Auth.refresh data) as [r|]; [case_bool_decide|]; done.
Qed.

Lemma establishment_ordered {R} (run : Auth.M R) data (a : Auth.App) r
    (body := (Auth.saveAuth stringify data;;
              Auth.setUser (Some (Auth.user data));;
              Auth.queryClient_clear) : Auth.M unit) :
  run a = (r, Async.final body a, a :: Async.suspended body a) →
  Forall (λ s, Auth.user_state s = Auth.user_state a
               ∨ Scenario.persisted stringify data s)
         (Async.observable run a)
  ∧ (Scenario.recoverable a
     → Forall Scenario.recoverable (Async.observable run a))
  ∧ Auth.user_state (Async.final run a) = Some (Auth.user data)
  ∧ Async.result run a = r.
Proof.
  intros Hrun.
  destruct (onSuccess_observable stringify data a) as (Hsusp & Huser & Hpers).
  fold body in Hsusp, Huser, Hpers.
  unfold Async.observable, Async.final, Async.suspended, Async.result in *.
  rewrite Hrun. simpl. split_and!; [| |done|done].
  - apply Forall_cons. split; [by left|].
    apply Forall_app. split.
    + eapply Forall_impl; [exact Hsusp|]. intros s [Hs _]. by left.
    + apply Forall_cons. split; [by right|by apply Forall_nil].
  - intros Ha. apply Forall_cons. split; [done|].
    apply Forall_app. split.
    + eapply Forall_impl; [exact Hsusp|].
      intros s [Hu [Hsame|Hacc]] Hauth; [|eauto].
      rewrite Hsame. apply Ha. unfold Auth.isAuthenticated in *.
      by rewrite <- Hu.
    + apply Forall_cons. split; [|by apply Forall_nil].
      intros _. destruct Hpers as [Hacc _]. eauto.
Qed.

(** C2: in a login, and in a registration, that the remote side accepts,
    every state that can be observed either still has the in-memory user
    it had at the start or already has the access token and the profile
    of the answer in the durable storage; so if the start state has no
    session without a stored access token, no observable state has one.
    At the end the in-memory user is the one of the answer. *)
Theorem C2_persist_before_publish payload data (a : Auth.App) :
  (api (mkRequest POST "/auth/login/" (Some payload)) = inr data →
   let run := Mutation.mutateAsync (Auth.login stringify message api) payload in
   Forall (λ s, Auth.user_state s = Auth.user_state a
                ∨ Scenario.persisted stringify data s)
          (Async.observable run a)
   ∧ (Scenario.recoverable a
      → Forall Scenario.recoverable (Async.observable run a))
   ∧ Auth.user_state (Async.final run a) = Some (Auth.user data)
   ∧ Async.result run a = inr data)
  ∧ (api (mkRequest POST "/auth/register/" (Some payload)) = inr data →
     let run := Mutation.mutateAsync (Auth.register stringify message api)
                  payload in
     Forall (λ s, Auth.user_state s = Auth.user_state a
                  ∨ Scenario.persisted stringify data s)
            (Async.observable run a)
     ∧ (Scenario.recoverable a
        → Forall Scenario.recoverable (Async.observable run a))
     ∧ Auth.user_state (Async.final run a) = Some (Auth.user data)
     ∧ Async.result run a = inr data).
Proof.
  split; intros Hok run; subst run.
  - by apply establishment_ordered, login_accepted.
  - by apply establishment_ordered, register_accepted.
Qed.

End session_claims.

Lemma C2_witness :
  Scenario.accepting
    (Http.mkRequest Http.POST "/auth/login/" (Some Scenario.credentials))
  = inr Scenario.answer
  ∧ Scenario.recoverable Scenario.fresh
  ∧ Forall Scenario.recoverable
      (Async.observable
         (Mutation.mutateAsync
            (Auth.login Scenario.serialize (λ e : string, e) Scenario.accepting)
            Scenario.credentials)
         Scenario.fresh).
Proof.
  assert (Scenario.recoverable Scenario.fresh) as Hfresh.
  { intros Hauth. vm_compute in Hauth. discriminate. }
  split; [reflexivity|]. split; [exact Hfresh|].
  apply (proj1 (C2_persist_before_publish Scenario.serialize (λ e : string, e)
                  Scenario.accepting Scenario.credentials Scenario.answer
                  Scenario.fresh) eq_refl).
  exact Hfresh.
Defined.

Section termination_claims.

Lemma logout_purged (a : Auth.App) : Scenario.purged (Async.final Auth.logout a).
Proof.
  destruct keys_distinct as (Har & Hau & Hru).
  unfold Scenario.purged. run_auth. split_and!.
  - intros key. apply get_clear.
  - by simplify_map_eq.
  - by simplify_map_eq.
  - by simplify_map_eq.
  - done.
Qed.



Lemma terminate_unfold ls (a : Auth.App) q :
  Auth.terminate (AuthEvents.mkState ls (AuthEvents.mkProcess a q))
  = fold_left (λ s m, Async.final m s)
              (map (λ _ : Auth.Listener, Auth.onLogoutEvent) ls)
              (fold_left (λ s m, Async.final m s) q a).
Proof.
  unfold Auth.terminate, Auth.call, AuthEvents.emitLogout. simpl.
  rewrite forEach_call_async. simpl. apply fold_left_app.
Qed.


(** C5, at a login answer with all three fields on an empty storage:
    [saveAuth] writes the entries one call after the other, and between
    the first write and the second the storage holds the access token
    without the refresh token and the profile; [clearAuth] removes the
    three entries in one call: every state it can be observed in has the
    storage as it was or none of the three, and the last one has none. *)
Theorem C5_saveAuth_writes_entry_by_entry :
  Auth.storage
    <$> Async.observable (Auth.saveAuth Scenario.serialize Scenario.answer)
          Scenario.fresh
  = [ ∅;
      {[ Auth.ACCESS_TOKEN_KEY := "tok" ]};
      {[ Auth.ACCESS_TOKEN_KEY := "tok" ]};
      {[ Auth.ACCESS_TOKEN_KEY := "tok"; Auth.REFRESH_TOKEN_KEY := "ref" ]};
      {[ Auth.ACCESS_TOKEN_KEY := "tok"; Auth.REFRESH_TOKEN_KEY := "ref" ]};
      {[ Auth.ACCESS_TOKEN_KEY := "tok"; Auth.REFRESH_TOKEN_KEY := "ref";
         Auth.USER_KEY := "{}" ]};
      {[ Auth.ACCESS_TOKEN_KEY := "tok"; Auth.REFRESH_TOKEN_KEY := "ref";
         Auth.USER_KEY := "{}" ]} ]
  ∧ (∃ s, s ∈ Async.observable
                (Auth.saveAuth Scenario.serialize Scenario.answer)
                Scenario.fresh
          ∧ is_Some (Auth.storage s !! Auth.ACCESS_TOKEN_KEY)
          ∧ Auth.storage s !! Auth.REFRESH_TOKEN_KEY = None
          ∧ Auth.storage s !! Auth.USER_KEY = None)
  ∧ (∀ a, Forall (λ s, Auth.storage s = Auth.storage a
                       ∨ (Auth.storage s !! Auth.ACCESS_TOKEN_KEY = None
                          ∧ Auth.storage s !! Auth.REFRESH_TOKEN_KEY = None
                          ∧ Auth.storage s !! Auth.USER_KEY = None))
                 (Async.observable Auth.clearAuth a)
          ∧ Auth.storage (Async.final Auth.clearAuth a)
              !! Auth.ACCESS_TOKEN_KEY = None
          ∧ Auth.storage (Async.final Auth.clearAuth a)
              !! Auth.REFRESH_TOKEN_KEY = None
          ∧ Auth.storage (Async.final Auth.clearAuth a)
              !! Auth.USER_KEY = None).
Proof.
  split_and!.
  - by vm_compute.
  - eexists. split; [apply list_elem_of_further, list_elem_of_here|].
    split_and!.
    + exists "tok". by vm_compute.
    + by vm_compute.
    + by vm_compute.
  - intros a. destruct keys_distinct as (Har & Hau & Hru). run_auth.
    split_and!; [|by simplify_map_eq..].
    apply Forall_cons. split; [by left|].
    repeat (apply Forall_cons; split; [right; simpl; by simplify_map_eq|]).
    by apply Forall_nil.
Qed.

(** C3, as stated, fails for an emission that finds no listener: with the
    hook not mounted the registry is empty, the emission calls nobody, and
    the cache, the storage and the user are what they were. *)
Lemma C3_counterexample_nobody_subscribed :
  Auth.terminate
    (AuthEvents.init (AuthEvents.mkProcess Scenario.signed_in []))
  = Scenario.signed_in
  ∧ QueryClient.getQueryData Scenario.posts
      (Auth.queryClient Scenario.signed_in)
    = Some [Scenario.post_A]
  ∧ QueryClient.getQueryData Scenario.posts
      (Auth.queryClient
         (Auth.terminate
            (AuthEvents.init (AuthEvents.mkProcess Scenario.signed_in []))))
    = Some [Scenario.post_A]
  ∧ ¬ Scenario.purged
        (Auth.terminate
           (AuthEvents.init (AuthEvents.mkProcess Scenario.signed_in []))).
Proof.
  split_and!; [done|by vm_compute|by vm_compute|].
  intros (Hcache & _). specialize (Hcache Scenario.posts).
  vm_compute in Hcache. discriminate.
Qed.

End termination_claims.


(** ** The definitions on concrete inputs *)

Example admin_has_role :
  Auth.hasRole (Some Scenario.admin) "admin" = true
  ∧ Auth.hasRole (Some Scenario.admin) "user" = false.
Proof. by vm_compute. Qed.

Example admin_has_permissions :
  Auth.hasPermission (Some Scenario.admin) "posts.write" = true
  ∧ Auth.hasPermission (Some Scenario.admin) "posts.delete" = false
  ∧ Auth.hasAnyPermission (Some Scenario.admin) ["posts.delete"; "posts.read"]
    = true
  ∧ Auth.hasAnyPermission (Some Scenario.admin) [] = false.
Proof. by vm_compute. Qed.

Example create_on_empty_cache :
  QueryClient.getQueryData Scenario.posts
    <$> Async.observable Scenario.failed_create QueryClient.empty
  = [ None;
      Some [ {[ "id" := Js.Str "temp-1700000000000"; "title" := Js.Str "New" ]} ];
      Some [ {[ "id" := Js.Str "temp-1700000000000"; "title" := Js.Str "New" ]} ] ].
Proof. by vm_compute. Qed.

Example remove_is_rolled_back :
  QueryClient.getQueryData Scenario.posts
    <$> Async.observable
          (Mutation.mutateAsync
             (BaseCrud.remove Scenario.rejecting Scenario.posts
                Scenario.posts_endpoint) (Js.Num 1))
          Scenario.cache_A
  = [ Some [Scenario.post_A]; Some []; Some [Scenario.post_A] ].
Proof. by vm_compute. Qed.

Example login_then_logout :
  Auth.storage
    <$> Async.observable
          (Mutation.mutateAsync
             (Auth.login Scenario.serialize (λ e : string, e) Scenario.accepting)
             Scenario.credentials;;
           Auth.logout)
          Scenario.fresh
  = [ ∅; ∅;
      {[ Auth.ACCESS_TOKEN_KEY := "tok" ]};
      {[ Auth.ACCESS_TOKEN_KEY := "tok" ]};
      {[ Auth.ACCESS_TOKEN_KEY := "tok"; Auth.REFRESH_TOKEN_KEY := "ref" ]};
      {[ Auth.ACCESS_TOKEN_KEY := "tok"; Auth.REFRESH_TOKEN_KEY := "ref" ]};
      {[ Auth.ACCESS_TOKEN_KEY := "tok"; Auth.REFRESH_TOKEN_KEY := "ref";
         Auth.USER_KEY := "{}" ]};
      {[ Auth.ACCESS_TOKEN_KEY := "tok"; Auth.REFRESH_TOKEN_KEY := "ref";
         Auth.USER_KEY := "{}" ]};
      ∅; ∅ ]
  ∧ Auth.isAuthenticated
      <$> Async.observable
            (Mutation.mutateAsync
               (Auth.login Scenario.serialize (λ e : string, e)
                  Scenario.accepting)
               Scenario.credentials;;
             Auth.logout)
            Scenario.fresh
    = [ false; false; false; false; false; false; false; true; true; false ].
Proof. by vm_compute. Qed.

Example unsubscribe_during_emission_is_still_called :
  (AuthEvents.emitLogout
     (λ l st, AuthEvents.Returned (AuthEvents.unsubscribe 2 st))
     Scenario.subscribed_two).1
  = [1; 2].
Proof. by vm_compute. Qed.

(** * Further properties of the code *)

(** ** The mutation engine beyond rollback *)

Section crud_more.

Import Js Http.

Context {ApiError Resp : Type}.
Variable api : Request → ApiError + Resp.
Variable queryKey : QueryClient.QueryKey.
Variable endpoint : string.

Implicit Types (qc : QueryClient.t) (data : object) (id : prim).

(** The state a mutation that wrote [optimistic] leaves when the remote
    side accepted the request. *)
Lemma create_accepted now data resp qc :
  api (mkRequest POST endpoint (Some data)) = inr resp →
  Mutation.mutateAsync (BaseCrud.create api queryKey endpoint now) data qc
  = (inr resp,
     QueryClient.invalidateQueries queryKey
       (QueryClient.setQueryData queryKey (BaseCrud.appended now data) qc),
     [qc; QueryClient.setQueryData queryKey (BaseCrud.appended now data) qc]).
Proof. intros Hok. run_async. rewrite Hok. by run_async. Qed.

Lemma update_accepted id data resp qc :
  api (mkRequest PUT (endpoint +:+ "/" +:+ to_string id +:+ "/") (Some data))
  = inr resp →
  Mutation.mutateAsync (BaseCrud.update api queryKey endpoint) (id, data) qc
  = (inr resp,
     QueryClient.invalidateQueries queryKey
       (QueryClient.setQueryData queryKey (BaseCrud.merged id data) qc),
     [qc; QueryClient.setQueryData queryKey (BaseCrud.merged id data) qc]).
Proof. intros Hok. run_async. rewrite Hok. by run_async. Qed.

Lemma remove_accepted id resp qc :
  api (mkRequest DELETE (endpoint +:+ "/" +:+ to_string id +:+ "/") None)
  = inr resp →
  Mutation.mutateAsync (BaseCrud.remove api queryKey endpoint) id qc
  = (inr resp,
     QueryClient.invalidateQueries queryKey
       (QueryClient.setQueryData queryKey (BaseCrud.without id) qc),
     [qc; QueryClient.setQueryData queryKey (BaseCrud.without id) qc]).
Proof. intros Hok. run_async. rewrite Hok. by run_async. Qed.

Lemma accepted_state f qc :
  let s := QueryClient.invalidateQueries queryKey
             (QueryClient.setQueryData queryKey f qc) in
  QueryClient.getQueryData queryKey s
  = Some (f (QueryClient.getQueryData queryKey qc))
  ∧ queryKey ∈ QueryClient.invalidated s.
Proof.
  cbv zeta. split.
  - by rewrite get_invalidateQueries, get_setQueryData.
  - apply invalidated_after. rewrite get_setQueryData. eauto.
Qed.

(** X1: when the remote side accepts a create, update or remove, the
    answer is handed to the caller and nothing of it is written to the
    cache: after the mutation has settled the key holds the collection that
    was written optimistically (for a create still with the temporary
    identifier) and is marked for a refetch. *)
Theorem X1_accepted_mutation_keeps_optimistic (qc : QueryClient.t) :
  (∀ now data resp,
      api (mkRequest POST endpoint (Some data)) = inr resp →
      let run := Mutation.mutateAsync
                   (BaseCrud.create api queryKey endpoint now) data in
      QueryClient.getQueryData queryKey (Async.final run qc)
      = Some (default [] (QueryClient.getQueryData queryKey qc)
              ++ [<["id" := BaseCrud.temp_id now]> data])
      ∧ queryKey ∈ QueryClient.invalidated (Async.final run qc)
      ∧ Async.result run qc = inr resp)
  ∧ (∀ id data resp,
      api (mkRequest PUT (endpoint +:+ "/" +:+ to_string id +:+ "/")
             (Some data)) = inr resp →
      let run := Mutation.mutateAsync
                   (BaseCrud.update api queryKey endpoint) (id, data) in
      QueryClient.getQueryData queryKey (Async.final run qc)
      = Some (BaseCrud.merged id data (QueryClient.getQueryData queryKey qc))
      ∧ queryKey ∈ QueryClient.invalidated (Async.final run qc)
      ∧ Async.result run qc = inr resp)
  ∧ (∀ id resp,
      api (mkRequest DELETE (endpoint +:+ "/" +:+ to_string id +:+ "/")
             None) = inr resp →
      let run := Mutation.mutateAsync
                   (BaseCrud.remove api queryKey endpoint) id in
      QueryClient.getQueryData queryKey (Async.final run qc)
      = Some (BaseCrud.without id (QueryClient.getQueryData queryKey qc))
      ∧ queryKey ∈ QueryClient.invalidated (Async.final run qc)
      ∧ Async.result run qc = inr resp).
Proof.
  split_and!.
  - intros now data resp Hok run. subst run.
    unfold Async.final, Async.result.
    rewrite (create_accepted _ _ resp) by done. simpl.
    by destruct (accepted_state (BaseCrud.appended now data) qc).
  - intros id data resp Hok run. subst run.
    unfold Async.final, Async.result.
    rewrite (update_accepted _ _ resp) by done. simpl.
    by destruct (accepted_state (BaseCrud.merged id data) qc).
  - intros id resp Hok run. subst run.
    unfold Async.final, Async.result.
    rewrite (remove_accepted _ resp) by done. simpl.
    by destruct (accepted_state (BaseCrud.without id) qc).
Qed.

Lemma other_key_accepted key' f qc :
  queryKey ≠ key' →
  Forall (λ s, QueryClient.getQueryData key' s
               = QueryClient.getQueryData key' qc)
         ([qc; QueryClient.setQueryData queryKey f qc]
          ++ [QueryClient.invalidateQueries queryKey
                (QueryClient.setQueryData queryKey f qc)]).
Proof.
  intros Hne. repeat (apply Forall_cons; split); [| | |by apply Forall_nil].
  - done.
  - by apply get_setQueryData_ne.
  - rewrite get_invalidateQueries. by apply get_setQueryData_ne.
Qed.

Lemma other_key_rejected key' f qc :
  queryKey ≠ key' →
  Forall (λ s, QueryClient.getQueryData key' s
               = QueryClient.getQueryData key' qc)
         ([qc; QueryClient.setQueryData queryKey f qc]
          ++ [Scenario.settled_failure queryKey f qc]).
Proof.
  intros Hne. repeat (apply Forall_cons; split); [| | |by apply Forall_nil].
  - done.
  - by apply get_setQueryData_ne.
  - unfold Scenario.settled_failure. rewrite get_invalidateQueries.
    destruct (QueryClient.getQueryData queryKey qc);
      by rewrite !get_setQueryData_ne.
Qed.

(** X2: a create, update or remove on one key never touches the data
    stored under another key: in every state that can be observed while the
    mutation runs and after it has settled, whatever the remote side
    answers, every other key reads what it read before. *)
Theorem X2_mutation_leaves_other_keys (qc : QueryClient.t)
    (key' : QueryClient.QueryKey) :
  queryKey ≠ key' →
  (∀ now data,
      Forall (λ s, QueryClient.getQueryData key' s
                   = QueryClient.getQueryData key' qc)
             (Async.observable
                (Mutation.mutateAsync
                   (BaseCrud.create api queryKey endpoint now) data) qc))
  ∧ (∀ id data,
      Forall (λ s, QueryClient.getQueryData key' s
                   = QueryClient.getQueryData key' qc)
             (Async.observable
                (Mutation.mutateAsync
                   (BaseCrud.update api queryKey endpoint) (id, data)) qc))
  ∧ (∀ id,
      Forall (λ s, QueryClient.getQueryData key' s
                   = QueryClient.getQueryData key' qc)
             (Async.observable
                (Mutation.mutateAsync
                   (BaseCrud.remove api queryKey endpoint) id) qc)).
Proof.
  intros Hne. split_and!.
  - intros now data.
    unfold Async.observable, Async.final, Async.suspended.
    destruct (api (mkRequest POST endpoint (Some data))) as [err|resp] eqn:Hr.
    + rewrite (create_rejected _ _ _ _ _ err) by done.
      by apply other_key_rejected.
    + rewrite (create_accepted _ _ resp) by done.
      by apply other_key_accepted.
  - intros id data.
    unfold Async.observable, Async.final, Async.suspended.
    destruct (api (mkRequest PUT (endpoint +:+ "/" +:+ to_string id +:+ "/")
                     (Some data))) as [err|resp] eqn:Hr.
    + rewrite (update_rejected _ _ _ _ _ err) by done.
      by apply other_key_rejected.
    + rewrite (update_accepted _ _ resp) by done.
      by apply other_key_accepted.
  - intros id.
    unfold Async.observable, Async.final, Async.suspended.
    destruct (api (mkRequest DELETE (endpoint +:+ "/" +:+ to_string id +:+ "/")
                     None)) as [err|resp] eqn:Hr.
    + rewrite (remove_rejected _ _ _ _ err) by done.
      by apply other_key_rejected.
    + rewrite (remove_accepted _ resp) by done.
      by apply other_key_accepted.
Qed.

End crud_more.

Section crud_edges.

Import Js Http.

Context {ApiError Resp : Type}.
Variable api : Request → ApiError + Resp.
Variable queryKey : QueryClient.QueryKey.
Variable endpoint : string.

Implicit Types (qc : QueryClient.t) (data : object) (id : prim)
  (old : QueryClient.Data).

(** X3: the rollback of a failed mutation writes back the snapshot taken
    when the mutation started, whatever the key holds by then; so when a
    second create starts and is accepted while a first one is in flight and
    the first one is then rejected, the entry is the one from before the
    first create and the entity of the second create is gone from it. *)
Theorem X3_rollback_discards_later_writes (qc qc' : QueryClient.t)
    (entry : QueryClient.Data) (err : ApiError) :
  QueryClient.getQueryData queryKey qc = Some entry →
  (∀ now data,
      let m := BaseCrud.create api queryKey endpoint now in
      QueryClient.getQueryData queryKey
        (Async.final
           (Mutation.onError m err data
              (Async.result (Mutation.onMutate m data) qc)) qc')
      = Some entry)
  ∧ (∀ id data,
      let m := BaseCrud.update api queryKey endpoint in
      QueryClient.getQueryData queryKey
        (Async.final
           (Mutation.onError m err (id, data)
              (Async.result (Mutation.onMutate m (id, data)) qc)) qc')
      = Some entry)
  ∧ (∀ id,
      let m := BaseCrud.remove api queryKey endpoint in
      QueryClient.getQueryData queryKey
        (Async.final
           (Mutation.onError m err id
              (Async.result (Mutation.onMutate m id) qc)) qc')
      = Some entry)
  ∧ (∀ now1 data1 now2 data2,
      let first := BaseCrud.create api queryKey endpoint now1 in
      let second := BaseCrud.create api queryKey endpoint now2 in
      QueryClient.getQueryData queryKey
        (Async.final
           (ctx1 ← Mutation.onMutate first data1;
            Mutation.onMutate second data2;;
            Mutation.onSettled second;;
            Mutation.onError first err data1 ctx1;;
            Mutation.onSettled first) qc)
      = Some entry).
Proof.
  intros Hentry. split_and!.
  - intros now data m. subst m. run_async. rewrite Hentry.
    apply get_setQueryData.
  - intros id data m. subst m. run_async. rewrite Hentry.
    apply get_setQueryData.
  - intros id m. subst m. run_async. rewrite Hentry.
    apply get_setQueryData.
  - intros now1 data1 now2 data2 first second. subst first second.
    run_async. rewrite Hentry. run_async.
    by rewrite get_invalidateQueries, get_setQueryData.
Qed.

Lemma remove_written id qc :
  QueryClient.getQueryData queryKey
    (Async.final
       (Mutation.onMutate (BaseCrud.remove api queryKey endpoint) id) qc)
  = Some (BaseCrud.without id (QueryClient.getQueryData queryKey qc)).
Proof. run_async. apply get_setQueryData. Qed.

Lemma update_written id data qc :
  QueryClient.getQueryData queryKey
    (Async.final
       (Mutation.onMutate (BaseCrud.update api queryKey endpoint) (id, data)) qc)
  = Some (BaseCrud.merged id data (QueryClient.getQueryData queryKey qc)).
Proof. run_async. apply get_setQueryData. Qed.

Lemma without_elem_of id (o : option QueryClient.Data) (item : object) :
  item ∈ BaseCrud.without id o ↔ item ∈ default [] o ∧ get item "id" ≠ id.
Proof.
  unfold BaseCrud.without, strict_eq. rewrite list_elem_of_filter.
  rewrite bool_decide_eq_false. tauto.
Qed.

Lemma without_unmatched id old :
  (∀ item, item ∈ old → get item "id" ≠ id) →
  BaseCrud.without id (Some old) = old.
Proof.
  unfold BaseCrud.without, strict_eq. simpl. intros Hno.
  induction old as [|item old IH]; [done|].
  rewrite filter_cons.
  destruct (decide (bool_decide (get item "id" = id) = false)) as [_|Hm].
  - rewrite IH; [done|]. intros i Hi. apply Hno. by apply list_elem_of_further.
  - destruct Hm. apply bool_decide_eq_false, Hno, list_elem_of_here.
Qed.

(** X4: the collection a remove writes has no entity with the given
    identifier and is otherwise the old collection: the entities with
    another identifier, all of them, in their order; when no entity has the
    identifier the collection is written back as it was, and when the key
    holds nothing the empty collection is written. *)
Theorem X4_remove_filters_by_identifier (qc : QueryClient.t) (id : prim) :
  let old := default [] (QueryClient.getQueryData queryKey qc) in
  ∃ new,
    QueryClient.getQueryData queryKey
      (Async.final
         (Mutation.onMutate (BaseCrud.remove api queryKey endpoint) id) qc)
    = Some new
    ∧ (∀ item, item ∈ new ↔ item ∈ old ∧ get item "id" ≠ id)
    ∧ new `sublist_of` old
    ∧ ((∀ item, item ∈ old → get item "id" ≠ id) → new = old)
    ∧ (QueryClient.getQueryData queryKey qc = None → new = []).
Proof.
  intros old. exists (BaseCrud.without id (QueryClient.getQueryData queryKey qc)).
  split_and!.
  - apply remove_written.
  - intros item. apply without_elem_of.
  - unfold BaseCrud.without. apply sublist_filter.
  - subst old. destruct (QueryClient.getQueryData queryKey qc) as [l|]; simpl.
    + apply without_unmatched.
    + done.
  - by intros ->.
Qed.

Lemma merged_ids id data old :
  data !! "id" = None →
  (λ item, get item "id") <$> BaseCrud.merged id data (Some old)
  = (λ item, get item "id") <$> old.
Proof.
  intros Hnoid. unfold BaseCrud.merged. simpl.
  rewrite <- list_fmap_compose. apply list_fmap_ext.
  intros i item _. simpl. destruct (strict_eq (get item "id") id); [|done].
  unfold get. by rewrite spread_lookup, Hnoid.
Qed.

Lemma merged_unmatched id data old :
  (∀ item, item ∈ old → get item "id" ≠ id) →
  BaseCrud.merged id data (Some old) = old.
Proof.
  intros Hno. unfold BaseCrud.merged. simpl.
  rewrite <- (list_fmap_id old) at 2. apply list_fmap_ext.
  intros i item Hi. unfold strict_eq. case_bool_decide as Hm; [|done].
  destruct (Hno item); [|done]. by eapply list_elem_of_lookup_2.
Qed.

Lemma merged_twice id data old :
  data !! "id" = None →
  BaseCrud.merged id data (Some (BaseCrud.merged id data (Some old)))
  = BaseCrud.merged id data (Some old).
Proof.
  intros Hnoid. unfold BaseCrud.merged. simpl.
  rewrite <- list_fmap_compose. apply list_fmap_ext.
  intros i item _. simpl. unfold strict_eq.
  destruct (decide (get item "id" = id)) as [Hm|Hm].
  - rewrite (bool_decide_eq_true_2 (get item "id" = id)) by done.
    assert (get (spread item data) "id" = id) as Hm'.
    { unfold get. rewrite spread_lookup, Hnoid. exact Hm. }
    rewrite bool_decide_eq_true_2 by done.
    unfold spread. by rewrite (assoc_L (∪)), (idemp_L (∪)).
  - rewrite (bool_decide_eq_false_2 (get item "id" = id)) by done.
    by rewrite bool_decide_eq_false_2.
Qed.

(** X5: an update whose fields do not contain ["id"] leaves the
    identifiers of the collection as they are, entity by entity, and
    applying it again changes nothing more; an update for an identifier no
    entity has, and an update with no fields, write the collection back as
    it was. *)
Theorem X5_update_keeps_identifiers (qc : QueryClient.t) (id : prim)
    (data : object) :
  let old := default [] (QueryClient.getQueryData queryKey qc) in
  ∃ new,
    QueryClient.getQueryData queryKey
      (Async.final
         (Mutation.onMutate (BaseCrud.update api queryKey endpoint) (id, data))
         qc)
    = Some new
    ∧ (data !! "id" = None →
       (λ item, get item "id") <$> new = (λ item, get item "id") <$> old
       ∧ BaseCrud.merged id data (Some new) = new)
    ∧ ((∀ item, item ∈ old → get item "id" ≠ id) → new = old)
    ∧ (data = ∅ → new = old).
Proof.
  intros old.
  exists (BaseCrud.merged id data (Some old)). split_and!.
  - rewrite update_written. subst old.
    by destruct (QueryClient.getQueryData queryKey qc).
  - intros Hnoid. split; [by apply merged_ids|by apply merged_twice].
  - apply merged_unmatched.
  - intros ->. unfold BaseCrud.merged. simpl.
    rewrite <- (list_fmap_id old) at 2. apply list_fmap_ext.
    intros i item _. destruct (strict_eq _ _); [|done].
    unfold spread. by rewrite (left_id_L ∅ (∪)).
Qed.

(** X6: removing the temporary identifier of a create that was just
    applied gives back the collection from before the create, when no
    entity of it has that identifier. *)
Theorem X6_remove_undoes_create (qc : QueryClient.t) (old : QueryClient.Data)
    (now : Z) (data : object) :
  QueryClient.getQueryData queryKey qc = Some old →
  (∀ item, item ∈ old → get item "id" ≠ BaseCrud.temp_id now) →
  QueryClient.getQueryData queryKey
    (Async.final
       (Mutation.onMutate (BaseCrud.create api queryKey endpoint now) data;;
        Mutation.onMutate (BaseCrud.remove api queryKey endpoint)
          (BaseCrud.temp_id now))
       qc)
  = Some old.
Proof.
  intros Hold Hfresh. run_async. rewrite get_setQueryData, get_setQueryData.
  rewrite Hold. f_equal. unfold BaseCrud.appended, BaseCrud.without. simpl.
  rewrite filter_app, filter_cons, filter_nil.
  destruct (decide _) as [Hne|_].
  - unfold strict_eq, get in Hne. rewrite lookup_insert_eq in Hne. simpl in Hne.
    by rewrite bool_decide_eq_true_2 in Hne.
  - rewrite app_nil_r. by apply without_unmatched.
Qed.

End crud_edges.

(** ** The session manager beyond login and logout *)

Section session_more.

Import Js Http.

Context {ApiError : Type} `{!ToBoolean ApiError}.
Variable stringify : Auth.User → string.
Variable message : ApiError → string.
Variable api : Request → ApiError + Auth.AuthResponse.

Lemma saveAuth_keeps_memory (data : Auth.AuthResponse) (a : Auth.App) :
  let s := Async.final (Auth.saveAuth stringify data) a in
  Auth.user_state s = Auth.user_state a
  ∧ Auth.queryClient s = Auth.queryClient a
  ∧ Auth.toasts s = Auth.toasts a.
Proof.
  cbv zeta. run_auth.
  by destruct (Auth.refresh data) as [r|]; [case_bool_decide|].
Qed.

Lemma onSuccess_final (data : Auth.AuthResponse) (a : Auth.App) :
  Async.final (Auth.saveAuth stringify data;;
               Auth.setUser (Some (Auth.user data));;
               Auth.queryClient_clear) a
  = Auth.mkApp (Auth.storage (Async.final (Auth.saveAuth stringify data) a))
               (Some (Auth.user data)) QueryClient.empty (Auth.toasts a).
Proof.
  run_auth. by destruct (Auth.refresh data) as [r|]; [case_bool_decide|].
Qed.

(** X7: [saveAuth] leaves the access token and the serialized profile of
    the answer in the storage; the refresh token of the answer when it is a
    non-empty string, and otherwise the refresh token entry as it was
    before, so the one of an earlier session stays; every other entry, the
    in-memory user and the cache are untouched. *)
Theorem X7_saveAuth_storage (data : Auth.AuthResponse) (a : Auth.App) :
  let s := Async.final (Auth.saveAuth stringify data) a in
  Auth.storage s !! Auth.ACCESS_TOKEN_KEY = Some (Auth.access data)
  ∧ Auth.storage s !! Auth.USER_KEY = Some (stringify (Auth.user data))
  ∧ Auth.storage s !! Auth.REFRESH_TOKEN_KEY
    = (if truthy_string (Auth.refresh data) then Auth.refresh data
       else Auth.storage a !! Auth.REFRESH_TOKEN_KEY)
  ∧ (∀ k, k ≠ Auth.ACCESS_TOKEN_KEY → k ≠ Auth.REFRESH_TOKEN_KEY →
          k ≠ Auth.USER_KEY → Auth.storage s !! k = Auth.storage a !! k)
  ∧ Auth.user_state s = Auth.user_state a
  ∧ Auth.queryClient s = Auth.queryClient a.
Proof.
  destruct keys_distinct as (Har & Hau & Hru).
  destruct (saveAuth_keeps_memory data a) as (Hu & Hq & _).
  cbv zeta in *. split_and!; [| | | |exact Hu|exact Hq]; clear Hu Hq.
  - run_auth. destruct (Auth.refresh data) as [r|]; [case_bool_decide|];
      simpl; by simplify_map_eq.
  - run_auth. destruct (Auth.refresh data) as [r|]; [case_bool_decide|];
      simpl; by simplify_map_eq.
  - run_auth. unfold truthy_string.
    destruct (Auth.refresh data) as [r|]; [case_bool_decide|];
      simpl; by simplify_map_eq.
  - intros k Hka Hkr Hku. run_auth.
    destruct (Auth.refresh data) as [r|]; [case_bool_decide|];
      simpl; by simplify_map_eq.
Qed.

(** X8: in a login or registration that the remote side accepts, the user
    of the answer is never in memory together with cache entries from
    before: in every observable state in which the in-memory user is the
    new one the cache is empty, provided the user in memory at the start
    was another one or none; at the end the cache is empty and no toast was
    added. *)
Theorem X8_new_user_never_sees_old_cache payload data (a : Auth.App) :
  Auth.user_state a ≠ Some (Auth.user data) →
  (api (mkRequest POST "/auth/login/" (Some payload)) = inr data →
   let run := Mutation.mutateAsync (Auth.login stringify message api) payload in
   Forall (λ s, Auth.user_state s = Some (Auth.user data) →
                Auth.queryClient s = QueryClient.empty)
          (Async.observable run a)
   ∧ Auth.queryClient (Async.final run a) = QueryClient.empty
   ∧ Auth.toasts (Async.final run a) = Auth.toasts a)
  ∧ (api (mkRequest POST "/auth/register/" (Some payload)) = inr data →
     let run := Mutation.mutateAsync (Auth.register stringify message api)
                  payload in
     Forall (λ s, Auth.user_state s = Some (Auth.user data) →
                  Auth.queryClient s = QueryClient.empty)
            (Async.observable run a)
     ∧ Auth.queryClient (Async.final run a) = QueryClient.empty
     ∧ Auth.toasts (Async.final run a) = Auth.toasts a).
Proof.
  intros Hother.
  assert (∀ run : Auth.M (ApiError + Auth.AuthResponse),
            run a = (let body := (Auth.saveAuth stringify data;;
                                  Auth.setUser (Some (Auth.user data));;
                                  Auth.queryClient_clear) : Auth.M unit in
                     (inr data, Async.final body a, a :: Async.suspended body a)) →
            Forall (λ s, Auth.user_state s = Some (Auth.user data) →
                         Auth.queryClient s = QueryClient.empty)
                   (Async.observable run a)
            ∧ Auth.queryClient (Async.final run a) = QueryClient.empty
            ∧ Auth.toasts (Async.final run a) = Auth.toasts a) as Hgen.
  { intros run Hrun. cbv zeta in Hrun.
    destruct (onSuccess_observable stringify data a) as (Hsusp & _ & _).
    cbv zeta in Hsusp.
    unfold Async.observable.
    replace (Async.final run a) with
      (Async.final (Auth.saveAuth stringify data;;
                    Auth.setUser (Some (Auth.user data));;
                    Auth.queryClient_clear) a)
      by (unfold Async.final at 2; by rewrite Hrun).
    replace (Async.suspended run a) with
      (a :: Async.suspended (Auth.saveAuth stringify data;;
                             Auth.setUser (Some (Auth.user data));;
                             Auth.queryClient_clear) a)
      by (unfold Async.suspended at 2; by rewrite Hrun).
    rewrite onSuccess_final. simpl. split_and!; [|done|done].
    apply Forall_cons. split; [by intros ?|].
    apply Forall_app. split.
    - eapply Forall_impl; [exact Hsusp|]. intros s [Hs _] Hnew.
      destruct Hother. by rewrite <- Hs.
    - apply Forall_cons. split; [done|by apply Forall_nil]. }
  split; intros Hok run; subst run; apply Hgen.
  - by apply login_accepted.
  - by apply register_accepted.
Qed.




End session_more.

Section flows_more.

Import Js Http.

Context {ApiError : Type} `{!ToBoolean ApiError}.
Variable stringify : Auth.User → string.
Variable message : ApiError → string.




End flows_more.

(** ** Start-up *)

Ltac run_boot :=
  unfold AuthFlows.bootstrap, AuthFlows.start, AuthFlows.setLoading,
    AuthFlows.hook_setUser;
  run_async.

Section bootstrap_facts.

Import Js Http.

Variable parse : string → option Auth.User.

Lemma bootstrap_final (storage : gmap string string) :
  Async.final (AuthFlows.bootstrap parse) (AuthFlows.start storage)
  = match storage !! Auth.USER_KEY with
    | Some v =>
        if bool_decide (v = "")
        then AuthFlows.mkHook (Auth.mkApp storage None QueryClient.empty []) false
        else match parse v with
             | Some u =>
                 AuthFlows.mkHook
                   (Auth.mkApp storage (Some u) QueryClient.empty []) false
             | None => AuthFlows.start storage
             end
    | None => AuthFlows.mkHook (Auth.mkApp storage None QueryClient.empty []) false
    end.
Proof.
  run_boot. destruct (storage !! Auth.USER_KEY) as [v|]; [|done].
  case_bool_decide; [done|]. by destruct (parse v).
Qed.

(** X12: what a login stored is what the next start finds: when
    [JSON.parse] gives back the user that [JSON.stringify] serialized (to a
    non-empty string), the start-up effect over the storage an accepted
    login left puts exactly the user of the answer in memory and ends with
    [loading] false, the storage as it was. *)
Theorem X12_bootstrap_restores_login {ApiError} `{!ToBoolean ApiError}
    (stringify : Auth.User → string) (message : ApiError → string)
    (api : Request → ApiError + Auth.AuthResponse) payload data
    (a : Auth.App) :
  api (mkRequest POST "/auth/login/" (Some payload)) = inr data →
  parse (stringify (Auth.user data)) = Some (Auth.user data) →
  stringify (Auth.user data) ≠ "" →
  let stored :=
    Auth.storage
      (Async.final
         (Mutation.mutateAsync (Auth.login stringify message api) payload) a) in
  let h := Async.final (AuthFlows.bootstrap parse) (AuthFlows.start stored) in
  Auth.user_state (AuthFlows.app h) = Some (Auth.user data)
  ∧ Auth.isAuthenticated (AuthFlows.app h) = true
  ∧ AuthFlows.loading h = false
  ∧ Auth.storage (AuthFlows.app h) = stored.
Proof.
  intros Hok Hparse Hnonempty stored h.
  assert (stored !! Auth.USER_KEY = Some (stringify (Auth.user data))) as Hstored.
  { subst stored. unfold Async.final.
    rewrite (login_accepted _ _ _ _ data) by done. cbv zeta. simpl.
    apply (onSuccess_observable stringify data a). }
  subst h. rewrite bootstrap_final, Hstored.
  rewrite bool_decide_eq_false_2 by done. by rewrite Hparse.
Qed.

(** X13: the start-up effect decides by the profile entry alone: without
    one, or with an empty one, it ends with no user in memory and [loading]
    false, also when an access token is stored; this is the case over the
    storage a logout left, whatever the session was. *)
Theorem X13_bootstrap_without_profile (storage : gmap string string) :
  ((storage !! Auth.USER_KEY = None ∨ storage !! Auth.USER_KEY = Some "") →
   Async.final (AuthFlows.bootstrap parse) (AuthFlows.start storage)
   = AuthFlows.mkHook (Auth.mkApp storage None QueryClient.empty []) false)
  ∧ (∀ a : Auth.App,
       let h := Async.final (AuthFlows.bootstrap parse)
                  (AuthFlows.start (Auth.storage (Async.final Auth.logout a))) in
       Auth.isAuthenticated (AuthFlows.app h) = false
       ∧ AuthFlows.loading h = false).
Proof.
  split.
  - intros [Hnone|Hempty]; rewrite bootstrap_final.
    + by rewrite Hnone.
    + by rewrite Hempty.
  - intros a h. subst h. rewrite bootstrap_final.
    destruct (logout_purged a) as (_ & _ & _ & Huser & _).
    by rewrite Huser.
Qed.

(** X14: when the stored profile is a non-empty string that [JSON.parse]
    rejects, the start-up effect ends where it started: no user in memory
    and [loading] still true, so that [AuthGuard] and [AuthGate] go on
    showing the spinner. *)
Theorem X14_bootstrap_unparsable_profile {Node} (storage : gmap string string)
    (v : string) (p : Guards.AuthGuardProps Node) (children : Node) :
  storage !! Auth.USER_KEY = Some v →
  v ≠ "" →
  parse v = None →
  let h := Async.final (AuthFlows.bootstrap parse) (AuthFlows.start storage) in
  h = AuthFlows.start storage
  ∧ AuthFlows.loading h = true
  ∧ Guards.AuthGuard p h = Guards.Spinner
  ∧ Guards.AuthGate children h = Guards.Spinner.
Proof.
  intros Hstored Hnonempty Hparse h. subst h.
  rewrite bootstrap_final, Hstored, bool_decide_eq_false_2, Hparse by done.
  done.
Qed.

End bootstrap_facts.

(** ** The event bus: exceptions and unmounting *)

Section bus_more.

Context {Listener : Type} `{EqDecision Listener}.

Lemma forEach_app_thrown {W}
    (call : Listener → AuthEvents.State Listener W
            → AuthEvents.Completion Listener W)
    (xs ys : list Listener) l st st' st'' :
  AuthEvents.forEach call xs st = (xs, AuthEvents.Returned st') →
  call l st' = AuthEvents.Thrown st'' →
  AuthEvents.forEach call (xs ++ l :: ys) st
  = (xs ++ [l], AuthEvents.Thrown st'').
Proof.
  revert st. induction xs as [|x xs IH]; intros st Hxs Hl; simpl in *.
  - injection Hxs as ->. by rewrite Hl.
  - destruct (call x st) as [st1|st1]; [|done].
    destruct (AuthEvents.forEach call xs st1) as [calls c] eqn:Hrest.
    injection Hxs as -> ->. by rewrite (IH st1).
Qed.

(** X15: a listener that throws ends the emission: when the listeners
    subscribed before it return and it throws, [emitLogout] has called
    those and it, in order, and none of the listeners subscribed after it,
    and the exception leaves [emitLogout]. *)
Theorem X15_throwing_listener_ends_emission {W}
    (call : Listener → AuthEvents.State Listener W
            → AuthEvents.Completion Listener W)
    (xs ys : list Listener) l (st st' st'' : AuthEvents.State Listener W) :
  AuthEvents.listeners st = xs ++ l :: ys →
  AuthEvents.forEach call xs st = (xs, AuthEvents.Returned st') →
  call l st' = AuthEvents.Thrown st'' →
  AuthEvents.emitLogout call st = (xs ++ [l], AuthEvents.Thrown st'').
Proof.
  intros Hls Hxs Hl. unfold AuthEvents.emitLogout. rewrite Hls.
  by apply forEach_app_thrown with st'.
Qed.

(** X16: the closures returned by [subscribe] can be called in any order:
    unsubscribing two listeners gives the same registry either way. *)
Theorem X16_unsubscribe_commutes {W} (f g : Listener)
    (st : AuthEvents.State Listener W) :
  AuthEvents.unsubscribe f (AuthEvents.unsubscribe g st)
  = AuthEvents.unsubscribe g (AuthEvents.unsubscribe f st)
  ∧ AuthEvents.listeners (AuthEvents.unsubscribe f (AuthEvents.unsubscribe g st))
    = filter (λ l, l ≠ f ∧ l ≠ g) (AuthEvents.listeners st).
Proof.
  unfold AuthEvents.unsubscribe. simpl.
  assert (∀ xs : list Listener,
            filter (λ l, l ≠ f) (filter (λ l, l ≠ g) xs)
            = filter (λ l, l ≠ f ∧ l ≠ g) xs) as Hfg.
  { intros xs. by rewrite list_filter_filter. }
  assert (∀ xs : list Listener,
            filter (λ l, l ≠ g) (filter (λ l, l ≠ f) xs)
            = filter (λ l, l ≠ f ∧ l ≠ g) xs) as Hgf.
  { intros xs. rewrite list_filter_filter. apply list_filter_iff.
    intros x. tauto. }
  split; [|apply Hfg]. by rewrite Hfg, Hgf.
Qed.

End bus_more.

(** X17: the listener of the hook is gone once the effect is cleaned up: a
    termination event emitted after the hook was unmounted calls nobody and
    leaves the session as it is, where the same event with the hook mounted
    leaves what a logout leaves. *)
Theorem X17_event_after_unmount_is_lost (a : Auth.App) (h : Auth.Listener) :
  let mounted := (Auth.mount h (AuthEvents.init (AuthEvents.mkProcess a []))).1 in
  let cleanup := (Auth.mount h (AuthEvents.init (AuthEvents.mkProcess a []))).2 in
  (AuthEvents.emitLogout Auth.call (cleanup mounted)).1 = []
  ∧ Auth.terminate (cleanup mounted) = a
  ∧ Auth.terminate mounted = Async.final Auth.logout a.
Proof.
  cbv zeta. unfold Auth.mount, AuthEvents.subscribe, AuthEvents.init. simpl.
  unfold AuthEvents.unsubscribe. simpl.
  rewrite filter_cons. destruct (decide (h ≠ h)) as [Hne|_]; [done|].
  rewrite filter_nil. split_and!; [done|done|].
  by rewrite terminate_unfold.
Qed.

(** ** The guards *)

Section guard_facts.

Context {Node : Type}.

Implicit Types (p : Guards.AuthGuardProps Node) (h : AuthFlows.Hook).

Lemma demanded_spec (xs : option (list string)) :
  Guards.demanded xs = true ↔ ∃ l, xs = Some l ∧ l ≠ [].
Proof.
  destruct xs as [[|x l]|]; simpl; split; try done.
  - by intros (l & [= <-] & ?).
  - intros _. by exists (x :: l).
  - by intros (l & ? & _).
Qed.

Lemma isAuthenticated_spec (a : Auth.App) :
  Auth.isAuthenticated a = true ↔ is_Some (Auth.user_state a).
Proof. unfold Auth.isAuthenticated. apply bool_decide_eq_true. Qed.

Lemma some_hasRole (u : option Auth.User) (rs : list string) :
  Js.some rs (λ r, Auth.hasRole u r) = true
  ↔ ∃ r, r ∈ rs ∧ Auth.role_of u = Some r.
Proof.
  rewrite some_exists. unfold Auth.hasRole.
  split; intros (r & Hr & Hrole); exists r; split; try done.
  - by apply bool_decide_eq_true in Hrole.
  - by apply bool_decide_eq_true.
Qed.

Lemma hasAnyPermission_spec (u : option Auth.User) (perms : list string) :
  Auth.hasAnyPermission u perms = true
  ↔ ∃ q, q ∈ perms ∧ q ∈ Auth.permissions_of u.
Proof.
  unfold Auth.hasAnyPermission. rewrite some_exists.
  split; intros (q & Hq & Hperm); exists q; split; try done.
  - by apply includes_elem_of.
  - by apply includes_elem_of.
Qed.

Lemma blocked_not_children p title description n :
  Guards.blocked p title description ≠ Guards.Children n.
Proof. unfold Guards.blocked. by destruct (Guards.fallback p). Qed.

(** X18: [AuthGuard] renders its children exactly when the hook has
    finished loading, there is a user in memory unless [requireAuth] was
    set to false, the role of the user is one of [roles] when a non-empty
    [roles] is given, and one of [permissions] is a permission of the user
    when a non-empty [permissions] is given. *)
Theorem X18_AuthGuard_renders_children p h :
  let user := Auth.user_state (AuthFlows.app h) in
  Guards.AuthGuard p h = Guards.Children (Guards.children p)
  ↔ AuthFlows.loading h = false
    ∧ (Guards.requireAuth p ≠ Some false → is_Some user)
    ∧ (∀ rs, Guards.roles p = Some rs → rs ≠ [] →
             ∃ r, r ∈ rs ∧ Auth.role_of user = Some r)
    ∧ (∀ qs, Guards.permissions p = Some qs → qs ≠ [] →
             ∃ q, q ∈ qs ∧ q ∈ Auth.permissions_of user).
Proof.
  intros user. unfold Guards.AuthGuard. fold user.
  destruct (AuthFlows.loading h).
  { split; [done|]. by intros [? _]. }
  assert (default true (Guards.requireAuth p)
          && negb (Auth.isAuthenticated (AuthFlows.app h)) = false
          ↔ (Guards.requireAuth p ≠ Some false → is_Some user)) as Hauth.
  { rewrite andb_false_iff, negb_false_iff, isAuthenticated_spec. fold user.
    destruct (Guards.requireAuth p) as [[|]|]; simpl.
    - split; [by intros [?|?]|]. intros Hu. right. by apply Hu.
    - split; [by intros _ ?|]. intros _. by left.
    - split; [by intros [?|?]|]. intros Hu. right. by apply Hu. }
  assert (Guards.demanded (Guards.roles p)
          && negb (Js.some (default [] (Guards.roles p))
                     (λ r, Auth.hasRole user r)) = false
          ↔ (∀ rs, Guards.roles p = Some rs → rs ≠ [] →
                   ∃ r, r ∈ rs ∧ Auth.role_of user = Some r)) as Hroles.
  { rewrite andb_false_iff, negb_false_iff, some_hasRole.
    destruct (Guards.roles p) as [rs|]; simpl.
    - split.
      + intros [Hd|Hr] rs' [= <-] Hne; [|done].
        destruct rs; [done|discriminate].
      + intros Hall. destruct rs as [|r rs]; [by left|].
        right. by apply Hall.
    - split; [done|]. intros _. by left. }
  assert (Guards.demanded (Guards.permissions p)
          && negb (Auth.hasAnyPermission user
                     (default [] (Guards.permissions p))) = false
          ↔ (∀ qs, Guards.permissions p = Some qs → qs ≠ [] →
                   ∃ q, q ∈ qs ∧ q ∈ Auth.permissions_of user)) as Hperms.
  { rewrite andb_false_iff, negb_false_iff, hasAnyPermission_spec.
    destruct (Guards.permissions p) as [qs|]; simpl.
    - split.
      + intros [Hd|Hq] qs' [= <-] Hne; [|done].
        destruct qs; [done|discriminate].
      + intros Hall. destruct qs as [|q qs]; [by left|].
        right. by apply Hall.
    - split; [done|]. intros _. by left. }
  rewrite <- Hauth, <- Hroles, <- Hperms.
  destruct (default true (Guards.requireAuth p) && _) eqn:E1.
  { split; [by intros ?%blocked_not_children|]. by intros (_ & ? & _). }
  destruct (Guards.demanded (Guards.roles p) && _) eqn:E2.
  { split; [by intros ?%blocked_not_children|]. by intros (_ & _ & ? & _). }
  destruct (Guards.demanded (Guards.permissions p) && _) eqn:E3.
  { split; [by intros ?%blocked_not_children|]. by intros (_ & _ & _ & ?). }
  done.
Qed.

(** X19: setting [requireAuth] to false does not open content that asks
    for a role or a permission: with no user in memory and a non-empty
    [roles] or [permissions], [AuthGuard] renders the fallback, or the
    denial message, never the children. *)
Theorem X19_AuthGuard_blocks_anonymous p h :
  AuthFlows.loading h = false →
  Auth.user_state (AuthFlows.app h) = None →
  Guards.demanded (Guards.roles p) = true
  ∨ Guards.demanded (Guards.permissions p) = true →
  ∃ title description,
    Guards.AuthGuard p h = Guards.blocked p title description
    ∧ Guards.AuthGuard p h ≠ Guards.Children (Guards.children p).
Proof.
  intros Hloaded Hnone Hdemanded. unfold Guards.AuthGuard.
  rewrite Hloaded, Hnone.
  assert (∀ rs, Js.some rs (λ r, Auth.hasRole None r) = false) as Hnorole.
  { intros rs. unfold Js.some. by induction rs. }
  assert (∀ qs, Auth.hasAnyPermission None qs = false) as Hnoperm.
  { intros qs. unfold Auth.hasAnyPermission, Js.some. by induction qs. }
  rewrite Hnorole, Hnoperm.
  destruct (default true (Guards.requireAuth p) && _).
  { eexists _, _. split; [done|apply blocked_not_children]. }
  destruct Hdemanded as [Hr|Hq].
  - rewrite Hr. simpl. eexists _, _. split; [done|apply blocked_not_children].
  - rewrite Hq.
    destruct (Guards.demanded (Guards.roles p)); simpl;
      eexists _, _; (split; [done|apply blocked_not_children]).
Qed.

(** X20: [AuthGate] and an [AuthGuard] without options agree on when the
    spinner and when the children are shown; with no user in memory the
    gate replaces the route by ["/login"] where the guard shows the
    ["Authentication required"] message. *)
Theorem X20_AuthGate_agrees_with_AuthGuard (children : Node) h :
  let guard := Guards.AuthGuard
                 (Guards.mkProps children None None None None) h in
  match Guards.AuthGate children h with
  | Guards.Spinner => AuthFlows.loading h = true ∧ guard = Guards.Spinner
  | Guards.Children n =>
      n = children ∧ guard = Guards.Children children
      ∧ is_Some (Auth.user_state (AuthFlows.app h))
  | Guards.Redirected to =>
      to = "/login"
      ∧ Auth.user_state (AuthFlows.app h) = None
      ∧ guard = Guards.EmptyState "Authentication required"
                                  "Please log in to continue."
  | _ => False
  end.
Proof.
  cbv zeta. unfold Guards.AuthGate, Guards.AuthGuard, Guards.blocked. simpl.
  destruct (AuthFlows.loading h); [done|].
  destruct (Auth.isAuthenticated (AuthFlows.app h)) eqn:Hauth; simpl.
  - split_and!; [done|done|]. by apply isAuthenticated_spec.
  - split_and!; [done| |done].
    unfold Auth.isAuthenticated in Hauth.
    apply bool_decide_eq_false in Hauth.
    destruct (Auth.user_state (AuthFlows.app h)); [|done].
    destruct Hauth. eauto.
Qed.

End guard_facts.

(** ** The keyboard height hook *)

Section keyboard_facts.

Context {number : Type}.
Variable zero : number.

Implicit Types (st : KeyboardHeight.State number)
  (evs : list (KeyboardHeight.EventName * number)).

Lemma run_app os evs evs' st :
  KeyboardHeight.run zero os (evs ++ evs') st
  = KeyboardHeight.run zero os evs' (KeyboardHeight.run zero os evs st).
Proof. apply fold_left_app. Qed.

Lemma run_hidden_zero os evs st :
  (KeyboardHeight.keyboardVisible st = false →
   KeyboardHeight.keyboardHeight st = zero) →
  KeyboardHeight.keyboardVisible (KeyboardHeight.run zero os evs st) = false →
  KeyboardHeight.keyboardHeight (KeyboardHeight.run zero os evs st) = zero.
Proof.
  revert st. induction evs as [|ev evs IH]; intros st Hst; [done|].
  simpl. apply IH. unfold KeyboardHeight.deliver.
  repeat case_bool_decide; simpl; done.
Qed.

Lemma run_unheard os evs st :
  (∀ ev, ev ∈ evs → ev.1 ≠ KeyboardHeight.showEvent os
                    ∧ ev.1 ≠ KeyboardHeight.hideEvent os) →
  KeyboardHeight.run zero os evs st = st.
Proof.
  revert st. induction evs as [|ev evs IH]; intros st Hevs; [done|].
  simpl. rewrite IH.
  - destruct (Hevs ev) as [Hs Hh]; [apply list_elem_of_here|].
    unfold KeyboardHeight.deliver.
    by rewrite !bool_decide_eq_false_2.
  - intros ev' Hin. apply Hevs. by apply list_elem_of_further.
Qed.

(** X21: on every platform and after every sequence of keyboard events,
    starting from the initial state: a hidden keyboard has height [0]; the
    state is decided by the last event the platform's listeners hear, the
    height of that event and visible after a show event, [0] and hidden
    after a hide event; and events under the other platform's names change
    nothing. *)
Theorem X21_keyboard_state_follows_last_event (os : KeyboardHeight.OS) evs :
  let st := KeyboardHeight.run zero os evs (KeyboardHeight.initial zero) in
  (KeyboardHeight.keyboardVisible st = false →
   KeyboardHeight.keyboardHeight st = zero)
  ∧ (∀ before name height after,
       evs = before ++ (name, height) :: after →
       (∀ ev, ev ∈ after → ev.1 ≠ KeyboardHeight.showEvent os
                           ∧ ev.1 ≠ KeyboardHeight.hideEvent os) →
       (name = KeyboardHeight.showEvent os →
        st = KeyboardHeight.mkState height true)
       ∧ (name = KeyboardHeight.hideEvent os →
          st = KeyboardHeight.initial zero))
  ∧ ((∀ ev, ev ∈ evs → ev.1 ≠ KeyboardHeight.showEvent os
                       ∧ ev.1 ≠ KeyboardHeight.hideEvent os) →
     st = KeyboardHeight.initial zero).
Proof.
  intros st. subst st. split_and!.
  - by apply run_hidden_zero.
  - intros before name height after -> Hafter.
    rewrite run_app. simpl. rewrite (run_unheard os after) by done.
    unfold KeyboardHeight.deliver. simpl. split.
    + intros ->. by rewrite bool_decide_eq_true_2.
    + intros ->. rewrite bool_decide_eq_false_2 by (by destruct os).
      by rewrite bool_decide_eq_true_2.
  - apply run_unheard.
Qed.

End keyboard_facts.

(** ** The further properties on concrete inputs *)

Lemma X1_witness :
  Cases.accepting
    (Http.mkRequest Http.POST Scenario.posts_endpoint (Some Scenario.title_New))
  = inr tt
  ∧ QueryClient.getQueryData Scenario.posts
      (Async.final
         (Mutation.mutateAsync
            (BaseCrud.create Cases.accepting Scenario.posts
               Scenario.posts_endpoint Scenario.clock) Scenario.title_New)
         Scenario.cache_A)
    = Some (default [] (QueryClient.getQueryData Scenario.posts Scenario.cache_A)
            ++ [<["id" := BaseCrud.temp_id Scenario.clock]> Scenario.title_New]).
Proof.
  split; [reflexivity|].
  apply (proj1 (X1_accepted_mutation_keeps_optimistic Cases.accepting
                  Scenario.posts Scenario.posts_endpoint Scenario.cache_A)
           Scenario.clock Scenario.title_New tt eq_refl).
Defined.

Lemma X2_witness :
  Scenario.posts ≠ Cases.users
  ∧ Forall (λ s, QueryClient.getQueryData Cases.users s
                 = QueryClient.getQueryData Cases.users Scenario.cache_A)
      (Async.observable
         (Mutation.mutateAsync
            (BaseCrud.remove Scenario.rejecting Scenario.posts
               Scenario.posts_endpoint) (Js.Num 1))
         Scenario.cache_A).
Proof.
  assert (Scenario.posts ≠ Cases.users) as Hne by discriminate.
  split; [exact Hne|].
  apply (proj2 (proj2 (X2_mutation_leaves_other_keys Scenario.rejecting
                         Scenario.posts Scenario.posts_endpoint
                         Scenario.cache_A Cases.users Hne))).
Defined.

Lemma X3_witness :
  QueryClient.getQueryData Scenario.posts Scenario.cache_A
  = Some [Scenario.post_A]
  ∧ QueryClient.getQueryData Scenario.posts
      (Async.final
         (ctx1 ← Mutation.onMutate
                   (BaseCrud.create Scenario.rejecting Scenario.posts
                      Scenario.posts_endpoint 1) Scenario.title_New;
          Mutation.onMutate
            (BaseCrud.create Scenario.rejecting Scenario.posts
               Scenario.posts_endpoint 2) Scenario.title_Other;;
          Mutation.onSettled
            (BaseCrud.create Scenario.rejecting Scenario.posts
               Scenario.posts_endpoint 2);;
          Mutation.onError
            (BaseCrud.create Scenario.rejecting Scenario.posts
               Scenario.posts_endpoint 1) "validation error"
            Scenario.title_New ctx1;;
          Mutation.onSettled
            (BaseCrud.create Scenario.rejecting Scenario.posts
               Scenario.posts_endpoint 1))
         Scenario.cache_A)
    = Some [Scenario.post_A].
Proof.
  assert (QueryClient.getQueryData Scenario.posts Scenario.cache_A
          = Some [Scenario.post_A]) as Hentry by (by vm_compute).
  split; [exact Hentry|].
  apply (proj2 (proj2 (proj2 (X3_rollback_discards_later_writes
                                Scenario.rejecting Scenario.posts
                                Scenario.posts_endpoint Scenario.cache_A
                                Scenario.cache_A [Scenario.post_A]
                                "validation error" Hentry)))
           1%Z Scenario.title_New 2%Z Scenario.title_Other).
Defined.

Lemma X4_witness :
  (∀ item, item ∈ [Scenario.post_A] → Js.get item "id" ≠ Js.Num 2)
  ∧ ∃ new,
      QueryClient.getQueryData Scenario.posts
        (Async.final
           (Mutation.onMutate
              (BaseCrud.remove Scenario.rejecting Scenario.posts
                 Scenario.posts_endpoint) (Js.Num 2))
           Scenario.cache_A)
      = Some new
      ∧ new = [Scenario.post_A].
Proof.
  assert (∀ item, item ∈ [Scenario.post_A] → Js.get item "id" ≠ Js.Num 2)
    as Hno.
  { intros item Hin. apply list_elem_of_singleton in Hin as ->.
    by vm_compute. }
  split; [exact Hno|].
  destruct (X4_remove_filters_by_identifier Scenario.rejecting Scenario.posts
              Scenario.posts_endpoint Scenario.cache_A (Js.Num 2))
    as (new & Hnew & _ & _ & Hsame & _).
  exists new. split; [exact Hnew|]. apply Hsame. exact Hno.
Defined.

Lemma X5_witness :
  Scenario.title_B !! "id" = None
  ∧ ∃ new,
      QueryClient.getQueryData Scenario.posts
        (Async.final
           (Mutation.onMutate
              (BaseCrud.update Scenario.rejecting Scenario.posts
                 Scenario.posts_endpoint) (Js.Num 1, Scenario.title_B))
           Scenario.cache_A)
      = Some new
      ∧ (λ item, Js.get item "id") <$> new = [Js.Num 1].
Proof.
  assert (Scenario.title_B !! "id" = None) as Hnoid by (by vm_compute).
  split; [exact Hnoid|].
  destruct (X5_update_keeps_identifiers Scenario.rejecting Scenario.posts
              Scenario.posts_endpoint Scenario.cache_A (Js.Num 1)
              Scenario.title_B)
    as (new & Hnew & Hids & _ & _).
  exists new. split; [exact Hnew|].
  rewrite (proj1 (Hids Hnoid)). by vm_compute.
Defined.

Lemma X6_witness :
  QueryClient.getQueryData Scenario.posts Scenario.cache_A
  = Some [Scenario.post_A]
  ∧ QueryClient.getQueryData Scenario.posts
      (Async.final
         (Mutation.onMutate
            (BaseCrud.create Scenario.rejecting Scenario.posts
               Scenario.posts_endpoint Scenario.clock) Scenario.title_New;;
          Mutation.onMutate
            (BaseCrud.remove Scenario.rejecting Scenario.posts
               Scenario.posts_endpoint) (BaseCrud.temp_id Scenario.clock))
         Scenario.cache_A)
    = Some [Scenario.post_A].
Proof.
  assert (QueryClient.getQueryData Scenario.posts Scenario.cache_A
          = Some [Scenario.post_A]) as Hentry by (by vm_compute).
  split; [exact Hentry|].
  apply (X6_remove_undoes_create Scenario.rejecting Scenario.posts
           Scenario.posts_endpoint Scenario.cache_A [Scenario.post_A]
           Scenario.clock Scenario.title_New Hentry).
  intros item Hin. apply list_elem_of_singleton in Hin as ->. by vm_compute.
Defined.

Lemma X7_witness :
  "theme" ≠ Auth.ACCESS_TOKEN_KEY ∧ "theme" ≠ Auth.REFRESH_TOKEN_KEY
  ∧ "theme" ≠ Auth.USER_KEY
  ∧ Auth.storage
      (Async.final (Auth.saveAuth Scenario.serialize Scenario.answer)
         Scenario.signed_in) !! "theme"
    = Auth.storage Scenario.signed_in !! "theme".
Proof.
  split_and!; [discriminate|discriminate|discriminate|].
  apply (X7_saveAuth_storage Scenario.serialize Scenario.answer
           Scenario.signed_in); discriminate.
Defined.

Lemma X8_witness :
  Auth.user_state Scenario.fresh ≠ Some (Auth.user Scenario.answer)
  ∧ Auth.queryClient
      (Async.final
         (Mutation.mutateAsync
            (Auth.login Scenario.serialize (λ e : string, e) Scenario.accepting)
            Scenario.credentials)
         Scenario.fresh)
    = QueryClient.empty.
Proof.
  assert (Auth.user_state Scenario.fresh ≠ Some (Auth.user Scenario.answer))
    as Hother by discriminate.
  split; [exact Hother|].
  apply (proj1 (X8_new_user_never_sees_old_cache Scenario.serialize
                  (λ e : string, e) Scenario.accepting Scenario.credentials
                  Scenario.answer Scenario.fresh Hother) eq_refl).
Defined.



Lemma X12_witness :
  Scenario.accepting
    (Http.mkRequest Http.POST "/auth/login/" (Some Scenario.credentials))
  = inr Scenario.answer
  ∧ Cases.parse (Scenario.serialize (Auth.user Scenario.answer))
    = Some (Auth.user Scenario.answer)
  ∧ Scenario.serialize (Auth.user Scenario.answer) ≠ ""
  ∧ Auth.user_state
      (AuthFlows.app
         (Async.final (AuthFlows.bootstrap Cases.parse)
            (AuthFlows.start
               (Auth.storage
                  (Async.final
                     (Mutation.mutateAsync
                        (Auth.login Scenario.serialize (λ e : string, e)
                           Scenario.accepting)
                        Scenario.credentials)
                     Scenario.fresh)))))
    = Some (Auth.user Scenario.answer).
Proof.
  split_and!; [reflexivity|reflexivity|discriminate|].
  apply (X12_bootstrap_restores_login Cases.parse Scenario.serialize
           (λ e : string, e) Scenario.accepting Scenario.credentials
           Scenario.answer Scenario.fresh eq_refl eq_refl).
  discriminate.
Defined.

Lemma X13_witness :
  ({[ Auth.ACCESS_TOKEN_KEY := "tok" ]} : gmap string string) !! Auth.USER_KEY
  = None
  ∧ Async.final (AuthFlows.bootstrap Cases.parse)
      (AuthFlows.start {[ Auth.ACCESS_TOKEN_KEY := "tok" ]})
    = AuthFlows.mkHook
        (Auth.mkApp {[ Auth.ACCESS_TOKEN_KEY := "tok" ]} None
           QueryClient.empty [])
        false.
Proof.
  assert (({[ Auth.ACCESS_TOKEN_KEY := "tok" ]} : gmap string string)
            !! Auth.USER_KEY = None) as Hnone by (by vm_compute).
  split; [exact Hnone|].
  apply (proj1 (X13_bootstrap_without_profile Cases.parse
                  {[ Auth.ACCESS_TOKEN_KEY := "tok" ]})).
  left. exact Hnone.
Defined.

Lemma X14_witness :
  Cases.corrupted !! Auth.USER_KEY = Some "{"
  ∧ "{" ≠ ""
  ∧ Cases.parse "{" = None
  ∧ Guards.AuthGuard Cases.admins_only
      (Async.final (AuthFlows.bootstrap Cases.parse)
         (AuthFlows.start Cases.corrupted))
    = Guards.Spinner.
Proof.
  assert (Cases.corrupted !! Auth.USER_KEY = Some "{") as Hstored
    by (by vm_compute).
  assert ("{" ≠ "") as Hnonempty by discriminate.
  split_and!; [exact Hstored|exact Hnonempty|reflexivity|].
  apply (X14_bootstrap_unparsable_profile Cases.parse Cases.corrupted "{"
           Cases.admins_only tt Hstored Hnonempty eq_refl).
Defined.

Lemma X15_witness :
  AuthEvents.listeners Cases.three = [1] ++ 2 :: [3]
  ∧ AuthEvents.forEach Cases.second_throws [1] Cases.three
    = ([1], AuthEvents.Returned Cases.three)
  ∧ Cases.second_throws 2 Cases.three = AuthEvents.Thrown Cases.three
  ∧ AuthEvents.emitLogout Cases.second_throws Cases.three
    = ([1] ++ [2], AuthEvents.Thrown Cases.three).
Proof.
  split_and!; [reflexivity|reflexivity|reflexivity|].
  apply (X15_throwing_listener_ends_emission Cases.second_throws [1] [3] 2
           Cases.three Cases.three Cases.three eq_refl eq_refl eq_refl).
Defined.

Lemma X18_witness :
  Guards.AuthGuard Cases.admins_only Cases.hook_signed_in
  = Guards.Children (Guards.children Cases.admins_only)
  ∧ ∃ r, r ∈ ["admin"]
         ∧ Auth.role_of (Auth.user_state (AuthFlows.app Cases.hook_signed_in))
           = Some r.
Proof.
  assert (Guards.AuthGuard Cases.admins_only Cases.hook_signed_in
          = Guards.Children (Guards.children Cases.admins_only)) as Hshown
    by (by vm_compute).
  split; [exact Hshown|].
  destruct (proj1 (X18_AuthGuard_renders_children Cases.admins_only
                     Cases.hook_signed_in) Hshown)
    as (_ & _ & Hroles & _).
  apply (Hroles ["admin"] eq_refl). discriminate.
Defined.

Lemma X19_witness :
  AuthFlows.loading Cases.hook_anonymous = false
  ∧ Auth.user_state (AuthFlows.app Cases.hook_anonymous) = None
  ∧ Guards.demanded (Guards.roles Cases.admins_only) = true
  ∧ ∃ title description,
      Guards.AuthGuard Cases.admins_only Cases.hook_anonymous
      = Guards.blocked Cases.admins_only title description
      ∧ Guards.AuthGuard Cases.admins_only Cases.hook_anonymous
        ≠ Guards.Children (Guards.children Cases.admins_only).
Proof.
  split_and!; [reflexivity|reflexivity|reflexivity|].
  apply (X19_AuthGuard_blocks_anonymous Cases.admins_only Cases.hook_anonymous
           eq_refl eq_refl).
  left. reflexivity.
Defined.

Lemma X21_witness :
  KeyboardHeight.keyboardVisible
    (KeyboardHeight.run 0%Z KeyboardHeight.android Cases.shown_then_hidden
       (KeyboardHeight.initial 0%Z))
  = false
  ∧ KeyboardHeight.keyboardHeight
      (KeyboardHeight.run 0%Z KeyboardHeight.android Cases.shown_then_hidden
         (KeyboardHeight.initial 0%Z))
    = 0%Z.
Proof.
  split; [reflexivity|].
  apply (proj1 (X21_keyboard_state_follows_last_event 0%Z
                  KeyboardHeight.android Cases.shown_then_hidden)).
  reflexivity.
Defined.
